(** * Hospital triage recommendation service: [case 3/main.py]

    A shallow embedding of the module [main.py] (module initialisation and
    the endpoint [recommend_department]) and the properties its
    specification states about it.

    The module is an orchestration of three libraries (python-dotenv,
    LangChain, FastAPI/pydantic) around one call to a hosted model.  Python
    values are modelled below; module globals are a dictionary from names
    to values, as in Python; code that raises, prints or calls the model
    provider lives in a state-and-exception monad over a [World]. *)

From Stdlib Require Import ZArith String Ascii List.
From stdpp Require Import gmap strings list fin_maps pretty.

#[local] Set Warnings "-register-all".
#[local] Open Scope Z_scope.

(** ** Python values and builtins *)

Module Py.

(** Objects that [json.loads] can produce, which also covers the [str] and
    [int] values of a request.  A [dict] decoded from JSON has string keys,
    no duplicate key, and is looked up by key: a finite map. *)
Inductive pyobj : Type :=
| PyNone
| PyBool (b : bool)
| PyInt (n : Z)
| PyFloat (repr : string)
| PyStr (s : string)
| PyList (xs : list pyobj)
| PyDict (d : gmap string pyobj).

(** The exception classes that occur in [main.py] and in the libraries it
    calls, with Python's subclass relation. *)
Inductive pyclass : Type :=
| cBaseException
| cException
| cValueError
| cTypeError
| cKeyError
| cNameError
| cAttributeError
| cValidationError          (* pydantic *)
| cOutputParserException    (* langchain_core.exceptions *)
| cHTTPException            (* fastapi *)
| cCancelledError           (* asyncio; derives from BaseException only *)
| cKeyboardInterrupt
| cOther (name : string).   (* any other class deriving from Exception *)

Definition base (c : pyclass) : option pyclass :=
  match c with
  | cBaseException => None
  | cException => Some cBaseException
  | cValueError | cTypeError | cKeyError | cNameError | cAttributeError => Some cException
  | cValidationError => Some cValueError
  | cOutputParserException => Some cValueError
  | cHTTPException => Some cException
  | cCancelledError | cKeyboardInterrupt => Some cBaseException
  | cOther _ => Some cException
  end.

#[global] Instance pyclass_eq_dec : EqDecision pyclass.
Proof. solve_decision. Defined.

Fixpoint issubclass_fuel (fuel : nat) (c d : pyclass) : bool :=
  if decide (c = d) then true
  else match fuel, base c with
       | S fuel', Some c' => issubclass_fuel fuel' c' d
       | _, _ => false
       end.

(** The hierarchy above has depth three. *)
Definition issubclass : pyclass -> pyclass -> bool := issubclass_fuel 3.

(** Exception instances.  [HTTPException] carries the two attributes
    [main.py] sets; every other instance carries the text [str(e)]
    gives. *)
Inductive exn : Type :=
| HTTPException (status_code : Z) (detail : string)
| Exc (c : pyclass) (msg : string).

Definition class_of (e : exn) : pyclass :=
  match e with
  | HTTPException _ _ => cHTTPException
  | Exc c _ => c
  end.

Definition isinstance (e : exn) (c : pyclass) : bool := issubclass (class_of e) c.

(** [str(n)] for an [int]. *)
Definition str_int (n : Z) : string := pretty n.

(** [str(e)].  Starlette's [HTTPException.__str__] is
    [f"{self.status_code}: {self.detail}"]. *)
Definition str_exn (e : exn) : string :=
  match e with
  | HTTPException status_code detail => str_int status_code +:+ ": " +:+ detail
  | Exc _ msg => msg
  end.

(** [str(v)] as [str.format] substitutes it, for the values that have a
    fixed text. *)
Definition str_obj (v : pyobj) : option string :=
  match v with
  | PyNone => Some "None"
  | PyBool true => Some "True"
  | PyBool false => Some "False"
  | PyInt n => Some (str_int n)
  | PyStr s => Some s
  | PyFloat _ | PyList _ | PyDict _ => None
  end.

(** Truth value of an [Optional[str]]: [None] and the empty string are
    false. *)
Definition truthy (v : option string) : bool :=
  match v with
  | None => false
  | Some s => negb (String.eqb s "")
  end.

(** [sep.join(xs)] *)
Fixpoint join (sep : string) (xs : list string) : string :=
  match xs with
  | [] => ""
  | [x] => x
  | x :: xs' => x +:+ sep +:+ join sep xs'
  end.

(** [s.replace(c, by)] for a one-character pattern [c]. *)
Fixpoint replace (c : ascii) (by_ : string) (s : string) : string :=
  match s with
  | EmptyString => EmptyString
  | String a s' =>
      if Ascii.eqb a c then by_ +:+ replace c by_ s'
      else String a (replace c by_ s')
  end.

(** *** [str.format] on templates with named fields

    The scanner of [str.format], for templates whose replacement fields
    are plain names: [{{] and [}}] are literal braces, [{name}] is replaced
    by [str(kwargs[name])].  A lone [}], an unclosed or empty field, a
    brace inside a field name, and a missing key are errors ([None]).
    Conversions and format specifications ([!], [:], [.], [[]) do not
    occur in this program's templates and are refused. *)
Inductive scan : Type :=
| Text
| AfterOpen
| InField (name : string)
| AfterClose.

Definition is_open (c : ascii) : bool := Ascii.eqb c "{".
Definition is_close (c : ascii) : bool := Ascii.eqb c "}".
Definition is_name_char (c : ascii) : bool :=
  negb (is_open c || is_close c || Ascii.eqb c "!" || Ascii.eqb c ":"
        || Ascii.eqb c "." || Ascii.eqb c "[" || Ascii.eqb c "]").

Fixpoint format_from (field : string -> option string) (m : scan) (s : string)
  : option string :=
  match s with
  | EmptyString => match m with Text => Some "" | _ => None end
  | String c rest =>
      match m with
      | Text =>
          if is_open c then format_from field AfterOpen rest
          else if is_close c then format_from field AfterClose rest
          else String c <$> format_from field Text rest
      | AfterOpen =>
          if is_open c then String c <$> format_from field Text rest
          else if is_name_char c then format_from field (InField (String c "")) rest
          else None
      | InField name =>
          if is_close c then
            text ← field name;
            tail ← format_from field Text rest;
            Some (text +:+ tail)
          else if is_name_char c then
            format_from field (InField (name +:+ String c "")) rest
          else None
      | AfterClose =>
          if is_close c then String c <$> format_from field Text rest
          else None
      end
  end.

(** [template.format] with keyword arguments [kwargs] *)
Definition format (template : string) (kwargs : gmap string pyobj) : option string :=
  format_from (fun name => kwargs !! name ≫= str_obj) Text template.

(** Whether the formatter can parse [template] at all, which is what a
    prompt template checks when it is built. *)
Definition well_formed (template : string) : bool :=
  match format_from (fun _ => Some "") Text template with
  | Some _ => true
  | None => false
  end.

(** A text without braces: the formatter copies it. *)
Fixpoint plain (s : string) : bool :=
  match s with
  | EmptyString => true
  | String c s' => negb (is_open c) && negb (is_close c) && plain s'
  end.

(** [type(v).__name__] *)
Definition type_name (v : pyobj) : string :=
  match v with
  | PyNone => "NoneType"
  | PyBool _ => "bool"
  | PyInt _ => "int"
  | PyFloat _ => "float"
  | PyStr _ => "str"
  | PyList _ => "list"
  | PyDict _ => "dict"
  end.

End Py.
Export Py.

(** ** The pydantic models of [main.py] *)

Module PatientInfo.
(** [class PatientInfo(BaseModel)]: the validated request body. *)
Record t : Type := { gender : string; age : Z; symptoms : list string }.
End PatientInfo.

Module LLMDepartmentOutput.
(** [class LLMDepartmentOutput(BaseModel)] *)
Record t : Type := { recommended_department : string }.

(** Validation of the keyword arguments [kw] of a call of the model class
    (pydantic 2): the one field is required; a [str] field accepts a [str]
    and nothing else that JSON can hold (numbers are not coerced); keys
    that are not fields are ignored.  [None] stands for
    [ValidationError]. *)
Definition validate (kw : gmap string pyobj) : option t :=
  match kw !! "recommended_department" with
  | Some (PyStr s) => Some {| recommended_department := s |}
  | Some _ => None
  | None => None
  end.
End LLMDepartmentOutput.

Module DepartmentRecommendation.
(** [class DepartmentRecommendation(BaseModel)]: the response model. *)
Record t : Type := { recommended_department : string }.

(** The JSON object FastAPI sends for a value of the response model. *)
Definition model_dump (r : t) : gmap string pyobj :=
  {[ "recommended_department" := PyStr (recommended_department r) ]}.
End DepartmentRecommendation.

(** ** The library objects [main.py] creates *)

Module JsonOutputParser.
Record t : Type := { pydantic_object : string }.
End JsonOutputParser.

Module ChatGoogleGenerativeAI.
(** [temperature] is a float; its literal is kept. *)
Record t : Type := { model : string; temperature : string; google_api_key : string }.
End ChatGoogleGenerativeAI.

Inductive role : Type := system | human.

Module BaseMessage.
Record t : Type := { type : role; content : string }.
End BaseMessage.

Module ChatPromptTemplate.
(** One template string per message. *)
Record t : Type := { messages : list (role * string) }.

(** [ChatPromptTemplate.from_messages]: every template must parse. *)
Definition from_messages (msgs : list (role * string)) : option t :=
  if forallb (fun m => well_formed (snd m)) msgs
  then Some {| messages := msgs |}
  else None.

(** [format_messages] with keyword arguments [kwargs]: each template is formatted with
    [str.format]; [None] when one of them fails. *)
Definition format_messages (p : t) (kwargs : gmap string pyobj)
  : option (list BaseMessage.t) :=
  mapM (fun '(r, template) =>
          text ← format template kwargs;
          Some {| BaseMessage.type := r; BaseMessage.content := text |})
       (messages p).
End ChatPromptTemplate.

Module RunnableSequence.
(** [prompt | llm | parser] *)
Record t : Type := {
  first : ChatPromptTemplate.t;
  middle : ChatGoogleGenerativeAI.t;
  last : JsonOutputParser.t
}.
End RunnableSequence.

Module APIRoute.
Record t : Type := {
  path : string;
  method : string;
  response_model : string;
  summary : string;
  description : string;
  endpoint : string
}.
End APIRoute.

Module FastAPI.
Record t : Type := {
  title : string;
  description : string;
  version : string;
  docs_url : string;
  redoc_url : string;
  routes : list APIRoute.t
}.

Definition add_api_route (r : APIRoute.t) (a : t) : t :=
  {| title := title a; description := description a; version := version a;
     docs_url := docs_url a; redoc_url := redoc_url a;
     routes := routes a ++ [r] |}.
End FastAPI.

(** ** Module globals and the world *)

(** What a module-level name of [main.py] can be bound to. *)
Inductive gval : Type :=
| GOptStr (v : option string)
| GParser (p : JsonOutputParser.t)
| GLLM (l : ChatGoogleGenerativeAI.t)
| GPrompt (p : ChatPromptTemplate.t)
| GChain (c : RunnableSequence.t)
| GApp (a : FastAPI.t).

(** The state a run can read or change: the process environment, the
    module's global names, the calls made to the model provider so far, and
    what was printed. *)
Record World : Type := {
  environ : gmap string string;
  globals : gmap string gval;
  provider_calls : list (ChatGoogleGenerativeAI.t * list BaseMessage.t);
  stdout : list string
}.

Definition set_environ (f : gmap string string -> gmap string string) (w : World) : World :=
  {| environ := f (environ w); globals := globals w;
     provider_calls := provider_calls w; stdout := stdout w |}.

Definition set_globals (f : gmap string gval -> gmap string gval) (w : World) : World :=
  {| environ := environ w; globals := f (globals w);
     provider_calls := provider_calls w; stdout := stdout w |}.

Definition set_provider_calls
    (f : list (ChatGoogleGenerativeAI.t * list BaseMessage.t)
         -> list (ChatGoogleGenerativeAI.t * list BaseMessage.t))
    (w : World) : World :=
  {| environ := environ w; globals := globals w;
     provider_calls := f (provider_calls w); stdout := stdout w |}.

Definition set_stdout (f : list string -> list string) (w : World) : World :=
  {| environ := environ w; globals := globals w;
     provider_calls := provider_calls w; stdout := f (stdout w) |}.

(** ** Computations that may raise *)

Inductive outcome (A : Type) : Type :=
| Return (a : A)
| Raise (e : exn).
Arguments Return {A} a.
Arguments Raise {A} e.

Definition M (A : Type) : Type := World -> outcome A * World.

#[global] Instance M_ret : MRet M := fun A a w => (Return a, w).

#[global] Instance M_bind : MBind M := fun A B f m w =>
  match m w with
  | (Return a, w') => f a w'
  | (Raise e, w') => (Raise e, w')
  end.

Definition raise {A : Type} (e : exn) : M A := fun w => (Raise e, w).

Definition get_world : M World := fun w => (Return w, w).

Definition modify (f : World -> World) : M unit := fun w => (Return tt, f w).

(** [try: body except c1 as e: h1 e except c2 as e: h2 e ...]: the first
    clause whose class the exception is an instance of handles it; an
    exception no clause matches, and one raised by a handler, propagates. *)
Definition try_except {A : Type} (body : M A) (clauses : list (pyclass * (exn -> M A)))
  : M A := fun w =>
  match body w with
  | (Return a, w') => (Return a, w')
  | (Raise e, w') =>
      match List.find (fun cl => isinstance e (fst cl)) clauses with
      | Some (_, handler) => handler e w'
      | None => (Raise e, w')
      end
  end.

(** [print(line)] *)
Definition print (line : string) : M unit := modify (set_stdout (fun out => out ++ [line])).

(** Reading a module-level name; an unbound name is a [NameError]. *)
Definition global (name : string) : M gval := fun w =>
  match globals w !! name with
  | Some v => (Return v, w)
  | None => (Raise (Exc cNameError ("name '" +:+ name +:+ "' is not defined")), w)
  end.

(** A module-level assignment [name = v]. *)
Definition assign (name : string) (v : gval) : M unit :=
  modify (set_globals (insert name v)).

(** [os.getenv(name)] *)
Definition os_getenv (name : string) : M (option string) := fun w =>
  (Return (environ w !! name), w).

(** Truth value of what a global is bound to; library objects are true. *)
Definition truthy_global (v : gval) : bool :=
  match v with
  | GOptStr s => truthy s
  | _ => true
  end.

(** Using a global as a value of the type the code expects of it.  The
    module binds each name to a value of the expected type before it reads
    it, so the error branches are there for worlds the module did not
    build. *)
Definition as_str (v : gval) : M string :=
  match v with
  | GOptStr (Some s) => mret s
  | _ => raise (Exc cTypeError "expected str")
  end.

Definition as_parser (v : gval) : M JsonOutputParser.t :=
  match v with
  | GParser p => mret p
  | _ => raise (Exc cAttributeError "object is not a JsonOutputParser")
  end.

Definition as_llm (v : gval) : M ChatGoogleGenerativeAI.t :=
  match v with
  | GLLM l => mret l
  | _ => raise (Exc cTypeError "object is not a Runnable")
  end.

Definition as_prompt (v : gval) : M ChatPromptTemplate.t :=
  match v with
  | GPrompt p => mret p
  | _ => raise (Exc cTypeError "object is not a Runnable")
  end.

Definition as_chain (v : gval) : M RunnableSequence.t :=
  match v with
  | GChain c => mret c
  | _ => raise (Exc cAttributeError "object has no attribute 'ainvoke'")
  end.

Definition as_app (v : gval) : M FastAPI.t :=
  match v with
  | GApp a => mret a
  | _ => raise (Exc cAttributeError "object has no attribute 'post'")
  end.

(** ** HTTP responses *)

Module HTTPResponse.
Record t : Type := { status_code : Z; body : pyobj }.
End HTTPResponse.

(** What FastAPI sends for the outcome of an endpoint: the response model as
    a JSON object with status 200; for an [HTTPException], its status and
    [{"detail": detail}]; for another [Exception], Starlette's plain 500.  An
    exception that is no [Exception] ends the request without a response. *)
Definition respond (o : outcome DepartmentRecommendation.t) : option HTTPResponse.t :=
  match o with
  | Return r =>
      Some {| HTTPResponse.status_code := 200;
              HTTPResponse.body := PyDict (DepartmentRecommendation.model_dump r) |}
  | Raise (HTTPException status_code detail) =>
      Some {| HTTPResponse.status_code := status_code;
              HTTPResponse.body := PyDict {[ "detail" := PyStr detail ]} |}
  | Raise (Exc c _) =>
      if issubclass c cException
      then Some {| HTTPResponse.status_code := 500;
                   HTTPResponse.body := PyStr "Internal Server Error" |}
      else None
  end.

(** Running an endpoint for a request: whatever it returns or raises is
    turned into the response. *)
Definition run_endpoint (endpoint : M DepartmentRecommendation.t)
  : M (option HTTPResponse.t) := fun w =>
  let '(o, w') := endpoint w in (Return (respond o), w').

(** ** A scripted provider and canned parser, for concrete runs *)

Module Mock.

Definition DQ : string := String "034" EmptyString.

(** [{"recommended_department": "Neurology"}] *)
Definition neurology_text : string :=
  "{" +:+ DQ +:+ "recommended_department" +:+ DQ +:+ ": "
  +:+ DQ +:+ "Neurology" +:+ DQ +:+ "}".

(** The same object with an empty department. *)
Definition empty_department_text : string :=
  "{" +:+ DQ +:+ "recommended_department" +:+ DQ +:+ ": " +:+ DQ +:+ DQ +:+ "}".

(** [{"recommended_department": 7}] *)
Definition number_department_text : string :=
  "{" +:+ DQ +:+ "recommended_department" +:+ DQ +:+ ": 7}".

(** [{"department": "Neurology"}] *)
Definition other_key_text : string :=
  "{" +:+ DQ +:+ "department" +:+ DQ +:+ ": " +:+ DQ +:+ "Neurology" +:+ DQ +:+ "}".

Definition dotenv_values : gmap string string := ∅.

Definition get_format_instructions (p : JsonOutputParser.t) : string :=
  "Return a JSON object, as {" +:+ DQ +:+ "properties" +:+ DQ +:+ ": {"
  +:+ DQ +:+ JsonOutputParser.pydantic_object p +:+ DQ +:+ ": {}}}".

(** A parser that knows the texts above, the empty object and the empty
    array, and rejects everything else. *)
Definition parse_result (p : JsonOutputParser.t) (text : string) : pyobj + string :=
  if String.eqb text neurology_text
  then inl (PyDict {[ "recommended_department" := PyStr "Neurology" ]})
  else if String.eqb text empty_department_text
  then inl (PyDict {[ "recommended_department" := PyStr "" ]})
  else if String.eqb text number_department_text
  then inl (PyDict {[ "recommended_department" := PyInt 7 ]})
  else if String.eqb text other_key_text
  then inl (PyDict {[ "department" := PyStr "Neurology" ]})
  else if String.eqb text "{}" then inl (PyDict ∅)
  else if String.eqb text "[]" then inl (PyList [])
  else inr ("Invalid json output: " +:+ text).

(** A provider that answers its [n]-th call with the [n]-th entry of a
    script, and fails once the script is used up. *)
Definition generate (script : list (string + exn))
    (l : ChatGoogleGenerativeAI.t) (n : nat) (messages : list BaseMessage.t)
  : string + exn :=
  match script !! n with
  | Some answer => answer
  | None => inr (Exc (cOther "ResourceExhausted") "429 quota exceeded")
  end.

Definition validation_error_str (kw : gmap string pyobj) : string :=
  "1 validation error for LLMDepartmentOutput".

(** A process started with the key in its environment. *)
Definition fresh : World :=
  {| environ := {[ "GOOGLE_API_KEY" := "secret" ]};
     globals := ∅; provider_calls := []; stdout := [] |}.

(** A process started without the key, and one started with an empty
    key. *)
Definition unconfigured : World :=
  {| environ := {[ "PATH" := "/usr/bin" ]};
     globals := ∅; provider_calls := []; stdout := [] |}.

Definition empty_key : World :=
  {| environ := {[ "GOOGLE_API_KEY" := "" ]};
     globals := ∅; provider_calls := []; stdout := [] |}.

Definition patient : PatientInfo.t :=
  {| PatientInfo.gender := "female"; PatientInfo.age := 62;
     PatientInfo.symptoms := ["pusing"; "mual"; "sulit berjalan"] |}.

End Mock.

(** ** [main.py] *)

(** The dictionary [chain_input] the endpoint builds from a request. *)
Definition chain_input (patient_info : PatientInfo.t) : gmap string pyobj :=
  {[ "gender" := PyStr (PatientInfo.gender patient_info);
     "age" := PyInt (PatientInfo.age patient_info);
     "symptoms" := PyStr (join ", " (PatientInfo.symptoms patient_info)) ]}.

Definition LF : string := String "010" EmptyString.

Section Main.

(** What [main.py] depends on and is not its own code. *)

(** The variables of the [.env] file [load_dotenv] finds (none when there
    is no file). *)
Variable dotenv_values : gmap string string.

(** [parser.get_format_instructions()] *)
Variable get_format_instructions : JsonOutputParser.t -> string.

(** The parser on the model's text: the decoded object, or the message of
    the [OutputParserException] it raises. *)
Variable parse_result : JsonOutputParser.t -> string -> pyobj + string.

(** The provider: what the [n]-th call made to it, with these messages,
    answers: a text, or the exception the client raises. *)
Variable generate : ChatGoogleGenerativeAI.t -> nat -> list BaseMessage.t -> string + exn.

(** The text of pydantic's [ValidationError] for rejected keyword
    arguments. *)
Variable validation_error_str : gmap string pyobj -> string.

(** [load_dotenv()]: variables already in the environment are kept. *)
Definition load_dotenv : M unit :=
  modify (set_environ (fun env => env ∪ dotenv_values)).

Definition GEMINI_MODEL_ID : string := "models/gemini-1.5-flash".

Definition system_message_content (p : JsonOutputParser.t) : string :=
  "You are a highly experienced and accurate hospital triage assistant. "
  +:+ "Your task is to recommend the single most appropriate specialist department based on patient details. "
  +:+ "The patient symptoms will be provided in Bahasa Indonesia. "
  +:+ "Your response MUST be a JSON object with a single key 'recommended_department' and its value being the department name in English. "
  +:+ "Adhere strictly to the following JSON schema:" +:+ LF
  +:+ replace "}" "}}" (replace "{" "{{" (get_format_instructions p)) +:+ LF +:+ LF
  +:+ "Example Output: {{'recommended_department': 'Neurology'}}" +:+ LF +:+ LF
  +:+ "Consider common medical departments such as: Cardiology, Dentistry, Dermatology, General Medicine, Neurology, "
  +:+ "Neurosurgery, Pathology, Plastic & Reconstruction Surgery, Psychiatry, Radiology, Rehabilitation Medicine, "
  +:+ "Orthopaedics, Urology, Emergency, Obstetrics & Gynaecology, Pulmonology/Respiratory, Nephrology, Internal Medicine, "
  +:+ "General Surgery, Ophthalmology, ENT (Ear, Nose, Throat), Paediatrics. "
  +:+ "If a specific department isn't perfectly clear, choose the most general but appropriate one (e.g., Internal Medicine or Emergency).".

Definition human_message_template : string :=
  "Patient Gender: {gender}" +:+ LF
  +:+ "Patient Age: {age}" +:+ LF
  +:+ "Patient Symptoms (Bahasa Indonesia): {symptoms}" +:+ LF +:+ LF
  +:+ "Based on this information, what is the recommended department?".

Definition recommend_route : APIRoute.t :=
  {| APIRoute.path := "/recommend";
     APIRoute.method := "POST";
     APIRoute.response_model := "DepartmentRecommendation";
     APIRoute.summary := "Recommend Specialist Department";
     APIRoute.description := "Accepts patient gender, age, and a list of symptoms, and returns a recommended specialist department.";
     APIRoute.endpoint := "recommend_department" |}.

(** The module body, statement by statement (the class and function
    definitions bind names that never change and are not in [globals]). *)
Definition main_module : M unit :=
  (* 1. Load Environment Variables *)
  load_dotenv ;;
  key ← os_getenv "GOOGLE_API_KEY";
  assign "GOOGLE_API_KEY" (GOptStr key) ;;
  (* 2. Ensure API Key is Available *)
  k ← global "GOOGLE_API_KEY";
  (if negb (truthy_global k)
   then raise (Exc cValueError
                 ("GOOGLE_API_KEY not found in environment variables. "
                  +:+ "Please ensure it's set in a .env file or as an environment variable."))
   else mret tt) ;;
  (* 4. Langchain Setup *)
  assign "parser" (GParser {| JsonOutputParser.pydantic_object := "LLMDepartmentOutput" |}) ;;
  assign "GEMINI_MODEL_ID" (GOptStr (Some GEMINI_MODEL_ID)) ;;
  model_id ← global "GEMINI_MODEL_ID" ≫= as_str;
  api_key ← global "GOOGLE_API_KEY" ≫= as_str;
  assign "llm" (GLLM {| ChatGoogleGenerativeAI.model := model_id;
                        ChatGoogleGenerativeAI.temperature := "0.0";
                        ChatGoogleGenerativeAI.google_api_key := api_key |}) ;;
  p ← global "parser" ≫= as_parser;
  assign "system_message_content" (GOptStr (Some (system_message_content p))) ;;
  content ← global "system_message_content" ≫= as_str;
  match ChatPromptTemplate.from_messages
          [(system, content); (human, human_message_template)] with
  | Some t => assign "prompt" (GPrompt t)
  | None => raise (Exc cValueError "Invalid format string")
  end ;;
  pr ← global "prompt" ≫= as_prompt;
  l ← global "llm" ≫= as_llm;
  pa ← global "parser" ≫= as_parser;
  assign "recommendation_chain"
    (GChain {| RunnableSequence.first := pr;
               RunnableSequence.middle := l;
               RunnableSequence.last := pa |}) ;;
  (* 5. Initialize FastAPI Application *)
  assign "app"
    (GApp {| FastAPI.title := "Hospital Triage Specialist Recommendation API";
             FastAPI.description := "An API that recommends specialist hospital departments based on patient symptoms, gender, and age using a Google Gemini LLM.";
             FastAPI.version := "1.0.0";
             FastAPI.docs_url := "/docs";
             FastAPI.redoc_url := "/redoc";
             FastAPI.routes := [] |}) ;;
  (* 6. Define the API Endpoint *)
  a ← global "app" ≫= as_app;
  assign "app" (GApp (FastAPI.add_api_route recommend_route a)).

(** [await chain.ainvoke(input)] for [chain = prompt | llm | parser]: the
    prompt is formatted, the provider is called with the messages, the
    parser decodes the answer. *)
Definition ainvoke (chain : RunnableSequence.t) (input : gmap string pyobj) : M pyobj :=
  messages ←
    match ChatPromptTemplate.format_messages (RunnableSequence.first chain) input with
    | Some ms => mret ms
    | None => raise (Exc cKeyError "Input to ChatPromptTemplate is missing variables")
    end;
  w ← get_world;
  modify (set_provider_calls
            (fun calls => calls ++ [(RunnableSequence.middle chain, messages)])) ;;
  text ←
    match generate (RunnableSequence.middle chain) (length (provider_calls w)) messages with
    | inl text => mret text
    | inr e => raise e
    end;
  match parse_result (RunnableSequence.last chain) text with
  | inl obj => mret obj
  | inr msg => raise (Exc cOutputParserException msg)
  end.

(** The call of the model class on the unpacked response: a response that
    is no [dict] cannot be unpacked ([TypeError]); a [dict] is
    validated. *)
Definition new_LLMDepartmentOutput (raw_response : pyobj) : M LLMDepartmentOutput.t :=
  match raw_response with
  | PyDict kw =>
      match LLMDepartmentOutput.validate kw with
      | Some m => mret m
      | None => raise (Exc cValidationError (validation_error_str kw))
      end
  | _ =>
      raise (Exc cTypeError
               ("main.LLMDepartmentOutput() argument after ** must be a mapping, not "
                +:+ type_name raw_response))
  end.

Definition recommend_department (patient_info : PatientInfo.t)
  : M DepartmentRecommendation.t :=
  try_except
    (recommendation_chain ← global "recommendation_chain" ≫= as_chain;
     raw_response ← ainvoke recommendation_chain (chain_input patient_info);
     llm_response ←
       try_except (new_LLMDepartmentOutput raw_response)
         [ (cValidationError, fun ve =>
              raise (HTTPException 500
                       ("LLM response validation failed: " +:+ str_exn ve))) ];
     let recommended_department :=
       LLMDepartmentOutput.recommended_department llm_response in
     mret {| DepartmentRecommendation.recommended_department := recommended_department |})
    [ (cOutputParserException, fun e =>
         print ("Output parsing error: " +:+ str_exn e) ;;
         let error_detail :=
           "LLM output could not be parsed. This often means the LLM did not return valid JSON or did not follow the schema. Error: "
           +:+ str_exn e in
         raise (HTTPException 500 error_detail));
      (cException, fun e =>
         print ("General error during recommendation process: " +:+ str_exn e) ;;
         raise (HTTPException 500
                  ("An internal server error occurred: " +:+ str_exn e
                   +:+ ". Please check the server logs. "
                   +:+ "Ensure the correct LLM model ID is specified and your API key is valid."))) ].

(** A request [POST /recommend] with a validated body, as the application
    object routes it. *)
Definition post_recommend (patient_info : PatientInfo.t) : M (option HTTPResponse.t) :=
  a ← global "app" ≫= as_app;
  match List.find (fun r => String.eqb (APIRoute.path r) "/recommend"
                            && String.eqb (APIRoute.method r) "POST")
                  (FastAPI.routes a) with
  | Some _ => run_endpoint (recommend_department patient_info)
  | None =>
      mret (Some {| HTTPResponse.status_code := 404;
                    HTTPResponse.body := PyDict {[ "detail" := PyStr "Not Found" ]} |})
  end.

Fixpoint post_all (requests : list PatientInfo.t) : M (list (option HTTPResponse.t)) :=
  match requests with
  | [] => mret []
  | r :: rs =>
      x ← post_recommend r;
      xs ← post_all rs;
      mret (x :: xs)
  end.

(** The service: the server imports the module, then answers the
    requests it receives. *)
Definition service (requests : list PatientInfo.t) : M (list (option HTTPResponse.t)) :=
  main_module ;; post_all requests.

(** *** What the statements below refer to *)

(** The objects the module body binds when it runs to its end with the key
    [key]. *)
Definition the_parser : JsonOutputParser.t :=
  {| JsonOutputParser.pydantic_object := "LLMDepartmentOutput" |}.

Definition the_llm (key : string) : ChatGoogleGenerativeAI.t :=
  {| ChatGoogleGenerativeAI.model := GEMINI_MODEL_ID;
     ChatGoogleGenerativeAI.temperature := "0.0";
     ChatGoogleGenerativeAI.google_api_key := key |}.

Definition the_prompt : ChatPromptTemplate.t :=
  {| ChatPromptTemplate.messages :=
       [(system, system_message_content the_parser); (human, human_message_template)] |}.

Definition the_chain (key : string) : RunnableSequence.t :=
  {| RunnableSequence.first := the_prompt;
     RunnableSequence.middle := the_llm key;
     RunnableSequence.last := the_parser |}.

(** The system message the provider receives: the template with the format
    instructions as the parser gives them and single braces in the
    example. *)
Definition system_message_text : string :=
  "You are a highly experienced and accurate hospital triage assistant. "
  +:+ "Your task is to recommend the single most appropriate specialist department based on patient details. "
  +:+ "The patient symptoms will be provided in Bahasa Indonesia. "
  +:+ "Your response MUST be a JSON object with a single key 'recommended_department' and its value being the department name in English. "
  +:+ "Adhere strictly to the following JSON schema:" +:+ LF
  +:+ get_format_instructions the_parser +:+ LF +:+ LF
  +:+ "Example Output: {'recommended_department': 'Neurology'}" +:+ LF +:+ LF
  +:+ "Consider common medical departments such as: Cardiology, Dentistry, Dermatology, General Medicine, Neurology, "
  +:+ "Neurosurgery, Pathology, Plastic & Reconstruction Surgery, Psychiatry, Radiology, Rehabilitation Medicine, "
  +:+ "Orthopaedics, Urology, Emergency, Obstetrics & Gynaecology, Pulmonology/Respiratory, Nephrology, Internal Medicine, "
  +:+ "General Surgery, Ophthalmology, ENT (Ear, Nose, Throat), Paediatrics. "
  +:+ "If a specific department isn't perfectly clear, choose the most general but appropriate one (e.g., Internal Medicine or Emergency).".

(** The human message for a request: gender, age and the joined symptoms
    in the places of the three fields. *)
Definition human_message_text (patient_info : PatientInfo.t) : string :=
  "Patient Gender: " +:+ PatientInfo.gender patient_info +:+ LF
  +:+ "Patient Age: " +:+ str_int (PatientInfo.age patient_info) +:+ LF
  +:+ "Patient Symptoms (Bahasa Indonesia): "
  +:+ join ", " (PatientInfo.symptoms patient_info) +:+ LF +:+ LF
  +:+ "Based on this information, what is the recommended department?".

Definition prompt_messages (patient_info : PatientInfo.t) : list BaseMessage.t :=
  [ {| BaseMessage.type := system; BaseMessage.content := system_message_text |};
    {| BaseMessage.type := human; BaseMessage.content := human_message_text patient_info |} ].

(** The detail of the clause for [OutputParserException]. *)
Definition parse_error_detail (e : exn) : string :=
  "LLM output could not be parsed. This often means the LLM did not return valid JSON or did not follow the schema. Error: "
  +:+ str_exn e.

(** The detail of the clause for [Exception]. *)
Definition internal_error_detail (e : exn) : string :=
  "An internal server error occurred: " +:+ str_exn e
  +:+ ". Please check the server logs. "
  +:+ "Ensure the correct LLM model ID is specified and your API key is valid.".

(** The detail of the clause for [ValidationError]. *)
Definition validation_failed_detail (ve : exn) : string :=
  "LLM response validation failed: " +:+ str_exn ve.

(** The error of the start-up check. *)
Definition missing_key_error : exn :=
  Exc cValueError
    ("GOOGLE_API_KEY not found in environment variables. "
     +:+ "Please ensure it's set in a .env file or as an environment variable.").

(** What printing a line does to the world. *)
Definition printed (line : string) (w : World) : World :=
  set_stdout (fun out => out ++ [line]) w.

(** What the chain bound in [w] answers to a request made in [w]. *)
Definition chain_response (patient_info : PatientInfo.t) (w : World)
  : option (outcome pyobj) :=
  match globals w !! "recommendation_chain" with
  | Some (GChain chain) => Some (fst (ainvoke chain (chain_input patient_info) w))
  | _ => None
  end.

(** The worlds in which requests are served: the module was imported
    without error, and any number of requests were handled since. *)
Inductive serving : World -> Prop :=
| serving_import (w0 w : World) :
    main_module w0 = (Return tt, w) -> serving w
| serving_request (w w' : World) (patient_info : PatientInfo.t)
    (o : outcome DepartmentRecommendation.t) :
    serving w -> recommend_department patient_info w = (o, w') -> serving w'.

(** * Properties *)

(** ** Strings and the formatter *)

Lemma append_nil_l (s : string) : "" +:+ s = s.
Proof. reflexivity. Qed.

Lemma append_cons (c : ascii) (a b : string) : String c a +:+ b = String c (a +:+ b).
Proof. reflexivity. Qed.

Lemma fmap_append_cons (c : ascii) (s : string) (o : option string) :
  String c <$> (String.append s <$> o) = String.append (String c s) <$> o.
Proof. by destruct o. Qed.

Ltac norm_append := repeat (rewrite ?append_cons, ?append_nil_l; simpl).

(** Doubling the braces of a text makes the formatter give the text back:
    what the module relies on when it puts the format instructions into the
    system template. *)
Lemma format_from_escaped (field : string -> option string) (s rest : string) :
  format_from field Text (replace "}" "}}" (replace "{" "{{" s) +:+ rest)
  = String.append s <$> format_from field Text rest.
Proof.
  induction s as [|c s IH]; simpl.
  - rewrite append_nil_l. by destruct (format_from field Text rest).
  - destruct (Ascii.eqb c "{") eqn:Ho.
    + apply Ascii.eqb_eq in Ho as ->. norm_append.
      rewrite IH. apply fmap_append_cons.
    + simpl. destruct (Ascii.eqb c "}") eqn:Hc.
      * apply Ascii.eqb_eq in Hc as ->. norm_append.
        rewrite IH. apply fmap_append_cons.
      * norm_append. unfold is_open, is_close. rewrite Ho, Hc, IH.
        apply fmap_append_cons.
Qed.

Lemma format_from_plain (field : string -> option string) (lit rest : string) :
  plain lit = true ->
  format_from field Text (lit +:+ rest)
  = String.append lit <$> format_from field Text rest.
Proof.
  induction lit as [|c lit IH]; simpl; intros H.
  - rewrite append_nil_l. by destruct (format_from field Text rest).
  - apply andb_prop in H as [H1 H3]. apply andb_prop in H1 as [H1 H2].
    apply negb_true_iff in H1, H2. rewrite H1, H2, IH by done.
    apply fmap_append_cons.
Qed.

(** The system template formats to the system message, whatever the
    format instructions are and whatever the fields are bound to. *)
Lemma format_system_message (field : string -> option string) :
  format_from field Text (system_message_content the_parser) = Some system_message_text.
Proof.
  unfold system_message_content, system_message_text.
  rewrite !format_from_plain by reflexivity.
  rewrite format_from_escaped.
  match goal with
  | |- context [format_from field Text ?tail] =>
      let E := fresh in
      eassert (E : format_from field Text tail = Some _) by (vm_compute; reflexivity);
      rewrite E
  end.
  reflexivity.
Qed.

Lemma format_human_message (field : string -> option string) :
  format_from field Text human_message_template =
  g ← field "gender"; a ← field "age"; s ← field "symptoms";
  Some ("Patient Gender: " +:+ g +:+ LF +:+ "Patient Age: " +:+ a +:+ LF
        +:+ "Patient Symptoms (Bahasa Indonesia): " +:+ s +:+ LF +:+ LF
        +:+ "Based on this information, what is the recommended department?").
Proof.
  vm_compute.
  destruct (field "gender"); [|reflexivity].
  destruct (field "age"); [|reflexivity].
  destruct (field "symptoms"); reflexivity.
Qed.

Lemma chain_input_gender (patient_info : PatientInfo.t) :
  chain_input patient_info !! "gender" = Some (PyStr (PatientInfo.gender patient_info)).
Proof. reflexivity. Qed.

Lemma chain_input_age (patient_info : PatientInfo.t) :
  chain_input patient_info !! "age" = Some (PyInt (PatientInfo.age patient_info)).
Proof. reflexivity. Qed.

Lemma chain_input_symptoms (patient_info : PatientInfo.t) :
  chain_input patient_info !! "symptoms"
  = Some (PyStr (join ", " (PatientInfo.symptoms patient_info))).
Proof. reflexivity. Qed.

Lemma mapM_pair {A B : Type} (f : A -> option B) (a b : A) :
  mapM f [a; b] = x ← f a; y ← f b; Some [x; y].
Proof. simpl. destruct (f a); [|done]. simpl. by destruct (f b). Qed.

(** The prompt of the module formats, for every request, to the two
    messages [prompt_messages]. *)
Lemma format_messages_the_prompt (patient_info : PatientInfo.t) :
  ChatPromptTemplate.format_messages the_prompt (chain_input patient_info)
  = Some (prompt_messages patient_info).
Proof.
  unfold ChatPromptTemplate.format_messages, the_prompt, ChatPromptTemplate.messages.
  rewrite mapM_pair. unfold format.
  rewrite format_system_message, format_human_message.
  rewrite chain_input_gender, chain_input_age, chain_input_symptoms.
  reflexivity.
Qed.

Lemma well_formed_human_message_template : well_formed human_message_template = true.
Proof. vm_compute. reflexivity. Qed.

Lemma from_messages_the_prompt :
  ChatPromptTemplate.from_messages
    [(system, system_message_content the_parser); (human, human_message_template)]
  = Some the_prompt.
Proof.
  unfold ChatPromptTemplate.from_messages, forallb, snd.
  rewrite well_formed_human_message_template.
  unfold well_formed at 1. rewrite format_system_message.
  reflexivity.
Qed.

(** ** Module initialisation *)

(** The world after the first three statements of the module body. *)
Lemma main_module_without_key (w : World) (v : option string) :
  (environ w ∪ dotenv_values) !! "GOOGLE_API_KEY" = v ->
  truthy v = false ->
  main_module w
  = (Raise missing_key_error,
     set_globals (insert "GOOGLE_API_KEY" (GOptStr v))
       (set_environ (fun env => env ∪ dotenv_values) w)).
Proof.
  intros Hv Ht. unfold main_module.
  unfold load_dotenv, os_getenv, assign, modify, global, mbind, M_bind, mret, M_ret, raise.
  cbn -[lookup insert union]. rewrite Hv, lookup_insert_eq.
  cbn -[lookup insert union]. rewrite Ht.
  reflexivity.
Qed.

Ltac run_module :=
  repeat (cbn -[lookup insert union system_message_content human_message_template
                ChatPromptTemplate.from_messages];
          rewrite ?lookup_insert_eq;
          rewrite ?lookup_insert_ne by done).

(** The globals the module body leaves when it runs to its end. *)
Lemma main_module_with_key (w : World) (key : string) :
  (environ w ∪ dotenv_values) !! "GOOGLE_API_KEY" = Some key ->
  key <> "" ->
  exists w',
    main_module w = (Return tt, w')
    /\ globals w' !! "recommendation_chain" = Some (GChain (the_chain key))
    /\ (exists a, globals w' !! "app" = Some (GApp a)
                  /\ FastAPI.routes a = [recommend_route])
    /\ environ w' = environ w ∪ dotenv_values
    /\ provider_calls w' = provider_calls w
    /\ stdout w' = stdout w.
Proof.
  intros Hv Hk.
  assert (Ht : truthy (Some key) = true).
  { simpl. apply negb_true_iff, String.eqb_neq, Hk. }
  unfold main_module.
  unfold load_dotenv, os_getenv, assign, modify, global, as_str, as_parser, as_llm,
    as_prompt, as_app, mbind, M_bind, mret, M_ret, raise.
  cbn -[lookup insert union]. rewrite Hv, lookup_insert_eq.
  cbn -[lookup insert union truthy]. rewrite Ht.
  run_module.
  change {| JsonOutputParser.pydantic_object := "LLMDepartmentOutput" |} with the_parser.
  rewrite from_messages_the_prompt.
  run_module.
  eexists. split; [reflexivity|].
  run_module.
  repeat split; try reflexivity.
  eexists. split; reflexivity.
Qed.

(** ** The chain *)

(** What calling the provider does to the world. *)
Lemma ainvoke_frame (chain : RunnableSequence.t) (input : gmap string pyobj)
    (w w' : World) (o : outcome pyobj) :
  ainvoke chain input w = (o, w') ->
  globals w' = globals w /\ environ w' = environ w /\ stdout w' = stdout w
  /\ (provider_calls w' = provider_calls w
      \/ exists call, provider_calls w' = provider_calls w ++ [call]).
Proof.
  unfold ainvoke, mbind, M_bind, mret, M_ret, raise, get_world, modify.
  destruct (ChatPromptTemplate.format_messages _ _) as [ms|].
  - cbn -[lookup insert union].
    destruct (generate _ _ _) as [text|e].
    + destruct (parse_result _ _) as [obj|msg]; intros [= <- <-];
        repeat split; right; eexists; reflexivity.
    + intros [= <- <-]. repeat split; right; eexists; reflexivity.
  - intros [= <- <-]. repeat split; by left.
Qed.

(** The chain of the module: one call to the provider with the formatted
    messages, then the parser. *)
Lemma ainvoke_the_chain (key : string) (patient_info : PatientInfo.t) (w : World) :
  ainvoke (the_chain key) (chain_input patient_info) w
  = (match generate (the_llm key) (length (provider_calls w))
             (prompt_messages patient_info) with
     | inl text =>
         match parse_result the_parser text with
         | inl obj => Return obj
         | inr msg => Raise (Exc cOutputParserException msg)
         end
     | inr e => Raise e
     end,
     set_provider_calls
       (fun calls => calls ++ [(the_llm key, prompt_messages patient_info)]) w).
Proof.
  unfold ainvoke, the_chain, RunnableSequence.first, RunnableSequence.middle,
    RunnableSequence.last.
  rewrite format_messages_the_prompt.
  unfold mbind, M_bind, mret, M_ret, raise, get_world, modify.
  cbn -[lookup insert union the_llm the_parser prompt_messages].
  destruct (generate _ _ _) as [text|e]; [|reflexivity].
  destruct (parse_result _ _) as [obj|msg]; reflexivity.
Qed.

(** ** The endpoint, case by case *)

Ltac run_endpoint_with Hg Hi :=
  unfold recommend_department, try_except;
  unfold mbind, M_bind, global; rewrite Hg;
  unfold as_chain, mret, M_ret; rewrite Hi.

Section Endpoint.

Variables (patient_info : PatientInfo.t) (w w' : World) (chain : RunnableSequence.t).
Hypothesis Hbound : globals w !! "recommendation_chain" = Some (GChain chain).

Lemma endpoint_valid (kw : gmap string pyobj) (m : LLMDepartmentOutput.t) :
  ainvoke chain (chain_input patient_info) w = (Return (PyDict kw), w') ->
  LLMDepartmentOutput.validate kw = Some m ->
  recommend_department patient_info w
  = (Return {| DepartmentRecommendation.recommended_department :=
                 LLMDepartmentOutput.recommended_department m |}, w').
Proof.
  intros Hi Hv. run_endpoint_with Hbound Hi.
  unfold new_LLMDepartmentOutput. rewrite Hv. reflexivity.
Qed.

Lemma endpoint_invalid (kw : gmap string pyobj) :
  ainvoke chain (chain_input patient_info) w = (Return (PyDict kw), w') ->
  LLMDepartmentOutput.validate kw = None ->
  let inner :=
    HTTPException 500
      (validation_failed_detail (Exc cValidationError (validation_error_str kw))) in
  recommend_department patient_info w
  = (Raise (HTTPException 500 (internal_error_detail inner)),
     printed ("General error during recommendation process: " +:+ str_exn inner) w').
Proof.
  intros Hi Hv. run_endpoint_with Hbound Hi.
  unfold new_LLMDepartmentOutput. rewrite Hv. reflexivity.
Qed.

Lemma endpoint_not_mapping (raw_response : pyobj) :
  ainvoke chain (chain_input patient_info) w = (Return raw_response, w') ->
  (forall kw, raw_response <> PyDict kw) ->
  let e :=
    Exc cTypeError
      ("main.LLMDepartmentOutput() argument after ** must be a mapping, not "
       +:+ type_name raw_response) in
  recommend_department patient_info w
  = (Raise (HTTPException 500 (internal_error_detail e)),
     printed ("General error during recommendation process: " +:+ str_exn e) w').
Proof.
  intros Hi Hd. run_endpoint_with Hbound Hi.
  destruct raw_response; try reflexivity.
  by destruct (Hd d).
Qed.

Lemma endpoint_parser_exception (e : exn) :
  ainvoke chain (chain_input patient_info) w = (Raise e, w') ->
  isinstance e cOutputParserException = true ->
  recommend_department patient_info w
  = (Raise (HTTPException 500 (parse_error_detail e)),
     printed ("Output parsing error: " +:+ str_exn e) w').
Proof.
  intros Hi He. run_endpoint_with Hbound Hi.
  unfold List.find, fst. rewrite He. reflexivity.
Qed.

Lemma endpoint_other_exception (e : exn) :
  ainvoke chain (chain_input patient_info) w = (Raise e, w') ->
  isinstance e cOutputParserException = false ->
  isinstance e cException = true ->
  recommend_department patient_info w
  = (Raise (HTTPException 500 (internal_error_detail e)),
     printed ("General error during recommendation process: " +:+ str_exn e) w').
Proof.
  intros Hi Hp He. run_endpoint_with Hbound Hi.
  unfold List.find, fst. rewrite Hp, He. reflexivity.
Qed.

Lemma endpoint_not_caught (e : exn) :
  ainvoke chain (chain_input patient_info) w = (Raise e, w') ->
  isinstance e cException = false ->
  recommend_department patient_info w = (Raise e, w').
Proof.
  intros Hi He. run_endpoint_with Hbound Hi.
  assert (Hp : isinstance e cOutputParserException = false).
  { destruct e as [|c msg]; [done|]. by destruct c. }
  unfold List.find, fst. rewrite Hp, He. reflexivity.
Qed.

End Endpoint.

Lemma endpoint_unbound (patient_info : PatientInfo.t) (w : World) :
  globals w !! "recommendation_chain" = None ->
  let e := Exc cNameError "name 'recommendation_chain' is not defined" in
  recommend_department patient_info w
  = (Raise (HTTPException 500 (internal_error_detail e)),
     printed ("General error during recommendation process: " +:+ str_exn e) w).
Proof.
  intros Hg. unfold recommend_department, try_except.
  unfold mbind, M_bind, global. rewrite Hg. reflexivity.
Qed.

Lemma endpoint_not_chain (patient_info : PatientInfo.t) (w : World) (v : gval) :
  globals w !! "recommendation_chain" = Some v ->
  (forall chain, v <> GChain chain) ->
  let e := Exc cAttributeError "object has no attribute 'ainvoke'" in
  recommend_department patient_info w
  = (Raise (HTTPException 500 (internal_error_detail e)),
     printed ("General error during recommendation process: " +:+ str_exn e) w).
Proof.
  intros Hg Hv. unfold recommend_department, try_except.
  unfold mbind, M_bind, global. rewrite Hg.
  destruct v; try reflexivity. by destruct (Hv c).
Qed.

Lemma dict_or_not (raw : pyobj) :
  (exists kw, raw = PyDict kw) \/ (forall kw, raw <> PyDict kw).
Proof. destruct raw; eauto; right; discriminate. Qed.

Lemma chain_or_not (v : gval) :
  (exists chain, v = GChain chain) \/ (forall chain, v <> GChain chain).
Proof. destruct v; eauto; right; discriminate. Qed.

Ltac endpoint_done :=
  do 2 eexists; split; [reflexivity|]; split; eauto 7.

(** Whatever the chain answers, the endpoint ends in the world the chain
    left, with at most one more line printed, and its outcome is a
    recommendation, an [HTTPException] with status 500, or the chain's own
    exception when that is no [Exception]. *)
Lemma endpoint_after_chain (patient_info : PatientInfo.t) (w w' : World)
    (chain : RunnableSequence.t) (o : outcome pyobj) :
  globals w !! "recommendation_chain" = Some (GChain chain) ->
  ainvoke chain (chain_input patient_info) w = (o, w') ->
  exists o' w'',
    recommend_department patient_info w = (o', w'')
    /\ (w'' = w' \/ exists line, w'' = printed line w')
    /\ ((exists r, o' = Return r)
        \/ (exists detail, o' = Raise (HTTPException 500 detail))
        \/ (exists e, o' = Raise e /\ o = Raise e /\ isinstance e cException = false)).
Proof.
  intros Hb Hi. destruct o as [raw|e].
  - destruct (dict_or_not raw) as [[kw ->]|Hn].
    + destruct (LLMDepartmentOutput.validate kw) as [m|] eqn:Hv.
      * rewrite (endpoint_valid _ _ _ _ Hb _ _ Hi Hv). endpoint_done.
      * rewrite (endpoint_invalid _ _ _ _ Hb _ Hi Hv). endpoint_done.
    + rewrite (endpoint_not_mapping _ _ _ _ Hb _ Hi Hn). endpoint_done.
  - destruct (isinstance e cOutputParserException) eqn:Hp.
    + rewrite (endpoint_parser_exception _ _ _ _ Hb _ Hi Hp). endpoint_done.
    + destruct (isinstance e cException) eqn:He.
      * rewrite (endpoint_other_exception _ _ _ _ Hb _ Hi Hp He). endpoint_done.
      * rewrite (endpoint_not_caught _ _ _ _ Hb _ Hi He). endpoint_done.
Qed.

(** The outcome of the endpoint depends on the world only through what the
    chain answers. *)
Lemma endpoint_outcome_determined (patient_info : PatientInfo.t)
    (w1 w1' w2 w2' : World) (chain1 chain2 : RunnableSequence.t) (o : outcome pyobj) :
  globals w1 !! "recommendation_chain" = Some (GChain chain1) ->
  globals w2 !! "recommendation_chain" = Some (GChain chain2) ->
  ainvoke chain1 (chain_input patient_info) w1 = (o, w1') ->
  ainvoke chain2 (chain_input patient_info) w2 = (o, w2') ->
  fst (recommend_department patient_info w1) = fst (recommend_department patient_info w2).
Proof.
  intros Hb1 Hb2 Hi1 Hi2. destruct o as [raw|e].
  - destruct (dict_or_not raw) as [[kw ->]|Hn].
    + destruct (LLMDepartmentOutput.validate kw) as [m|] eqn:Hv.
      * by rewrite (endpoint_valid _ _ _ _ Hb1 _ _ Hi1 Hv),
          (endpoint_valid _ _ _ _ Hb2 _ _ Hi2 Hv).
      * by rewrite (endpoint_invalid _ _ _ _ Hb1 _ Hi1 Hv),
          (endpoint_invalid _ _ _ _ Hb2 _ Hi2 Hv).
    + by rewrite (endpoint_not_mapping _ _ _ _ Hb1 _ Hi1 Hn),
        (endpoint_not_mapping _ _ _ _ Hb2 _ Hi2 Hn).
  - destruct (isinstance e cOutputParserException) eqn:Hp.
    + by rewrite (endpoint_parser_exception _ _ _ _ Hb1 _ Hi1 Hp),
        (endpoint_parser_exception _ _ _ _ Hb2 _ Hi2 Hp).
    + destruct (isinstance e cException) eqn:He.
      * by rewrite (endpoint_other_exception _ _ _ _ Hb1 _ Hi1 Hp He),
          (endpoint_other_exception _ _ _ _ Hb2 _ Hi2 Hp He).
      * by rewrite (endpoint_not_caught _ _ _ _ Hb1 _ Hi1 He),
          (endpoint_not_caught _ _ _ _ Hb2 _ Hi2 He).
Qed.

(** Every outcome of the endpoint, in every world. *)
Lemma endpoint_outcomes (patient_info : PatientInfo.t) (w w' : World)
    (o : outcome DepartmentRecommendation.t) :
  recommend_department patient_info w = (o, w') ->
  (exists r, o = Return r)
  \/ (exists detail, o = Raise (HTTPException 500 detail))
  \/ (exists e, o = Raise e /\ isinstance e cException = false).
Proof.
  intros H.
  destruct (globals w !! "recommendation_chain") as [v|] eqn:Hg.
  - destruct (chain_or_not v) as [[chain ->]|Hn].
    + destruct (ainvoke chain (chain_input patient_info) w) as [oc wc] eqn:Hi.
      destruct (endpoint_after_chain _ _ _ _ _ Hg Hi) as (o' & w'' & E & _ & Ho).
      rewrite E in H. injection H as <- <-.
      destruct Ho as [?|[?|(e & ? & _ & ?)]]; eauto.
    + rewrite (endpoint_not_chain _ _ _ Hg Hn) in H. injection H as <- <-. eauto.
  - rewrite (endpoint_unbound _ _ Hg) in H. injection H as <- <-. eauto.
Qed.

(** The endpoint binds no global, leaves the environment alone, and calls
    the provider at most once. *)
Lemma endpoint_frame (patient_info : PatientInfo.t) (w w' : World)
    (o : outcome DepartmentRecommendation.t) :
  recommend_department patient_info w = (o, w') ->
  globals w' = globals w /\ environ w' = environ w
  /\ (provider_calls w' = provider_calls w
      \/ exists call, provider_calls w' = provider_calls w ++ [call]).
Proof.
  intros H.
  destruct (globals w !! "recommendation_chain") as [v|] eqn:Hg.
  - destruct (chain_or_not v) as [[chain ->]|Hn].
    + destruct (ainvoke chain (chain_input patient_info) w) as [oc wc] eqn:Hi.
      destruct (endpoint_after_chain _ _ _ _ _ Hg Hi) as (o' & w'' & E & Hw & _).
      rewrite E in H. injection H as <- <-.
      destruct (ainvoke_frame _ _ _ _ _ Hi) as (G & En & _ & C).
      destruct Hw as [->|[line ->]]; auto.
    + rewrite (endpoint_not_chain _ _ _ Hg Hn) in H. injection H as <- <-. auto.
  - rewrite (endpoint_unbound _ _ Hg) in H. injection H as <- <-. auto.
Qed.

(** In a world that serves requests, the chain is the one the module
    built. *)
Lemma serving_chain (w : World) :
  serving w ->
  exists key, globals w !! "recommendation_chain" = Some (GChain (the_chain key)).
Proof.
  induction 1 as [w0 w H|w w' patient_info o _ [key IH] H].
  - destruct ((environ w0 ∪ dotenv_values) !! "GOOGLE_API_KEY") as [key|] eqn:Hv.
    + destruct (decide (key = "")) as [->|Hk].
      * by rewrite (main_module_without_key _ _ Hv) in H.
      * destruct (main_module_with_key _ _ Hv Hk) as (w1 & E & Hc & _).
        rewrite E in H. injection H as <-. eauto.
    + by rewrite (main_module_without_key _ _ Hv) in H.
  - destruct (endpoint_frame _ _ _ _ H) as (G & _). rewrite G. eauto.
Qed.

(** In a world that serves requests, each request makes exactly one call to
    the provider, with the messages formatted from the request. *)
Lemma serving_one_call (patient_info : PatientInfo.t) (w w' : World)
    (o : outcome DepartmentRecommendation.t) :
  serving w ->
  recommend_department patient_info w = (o, w') ->
  exists key,
    globals w !! "recommendation_chain" = Some (GChain (the_chain key))
    /\ provider_calls w'
       = provider_calls w ++ [(the_llm key, prompt_messages patient_info)].
Proof.
  intros Hs H. destruct (serving_chain _ Hs) as [key Hg].
  exists key. split; [done|].
  pose proof (ainvoke_the_chain key patient_info w) as Hi.
  destruct (endpoint_after_chain _ _ _ _ _ Hg Hi) as (o' & w'' & E & Hw & _).
  rewrite E in H. injection H as <- <-.
  destruct Hw as [->|[line ->]]; reflexivity.
Qed.

(** ** The endpoint [recommend_department] *)

Lemma validate_string (kw : gmap string pyobj) (s : string) :
  kw !! "recommended_department" = Some (PyStr s) ->
  LLMDepartmentOutput.validate kw
  = Some {| LLMDepartmentOutput.recommended_department := s |}.
Proof. intros H. unfold LLMDepartmentOutput.validate. by rewrite H. Qed.

Lemma validate_no_string (kw : gmap string pyobj) :
  (forall s, kw !! "recommended_department" <> Some (PyStr s)) ->
  LLMDepartmentOutput.validate kw = None.
Proof.
  intros H. unfold LLMDepartmentOutput.validate.
  destruct (kw !! "recommended_department") as [[]|] eqn:E; try reflexivity.
  by destruct (H s).
Qed.

Lemma run_endpoint_eq (endpoint : M DepartmentRecommendation.t) (w w' : World)
    (o : outcome DepartmentRecommendation.t) :
  endpoint w = (o, w') -> run_endpoint endpoint w = (Return (respond o), w').
Proof. intros H. unfold run_endpoint. by rewrite H. Qed.

(** C1. For a validated request, when the chain returns a JSON object whose
    field [recommended_department] is a string, the endpoint returns the
    response model holding that same string, and the response is a JSON
    object with exactly the key [recommended_department], mapped to it. *)
Theorem recommend_department_returns_the_department
    (patient_info : PatientInfo.t) (w w' : World) (chain : RunnableSequence.t)
    (kw : gmap string pyobj) (s : string) :
  globals w !! "recommendation_chain" = Some (GChain chain) ->
  ainvoke chain (chain_input patient_info) w = (Return (PyDict kw), w') ->
  kw !! "recommended_department" = Some (PyStr s) ->
  let r := {| DepartmentRecommendation.recommended_department := s |} in
  recommend_department patient_info w = (Return r, w')
  /\ run_endpoint (recommend_department patient_info) w
     = (Return (Some {| HTTPResponse.status_code := 200;
                        HTTPResponse.body := PyDict (DepartmentRecommendation.model_dump r) |}),
        w')
  /\ dom (DepartmentRecommendation.model_dump r) = {[ "recommended_department" ]}
  /\ DepartmentRecommendation.model_dump r !! "recommended_department" = Some (PyStr s).
Proof.
  intros Hb Hi Hk r.
  pose proof (endpoint_valid _ _ _ _ Hb _ _ Hi (validate_string _ _ Hk)) as E.
  split; [exact E|]. split; [exact (run_endpoint_eq _ _ _ _ E)|].
  unfold DepartmentRecommendation.model_dump. split.
  - apply dom_singleton_L.
  - apply lookup_singleton_eq.
Qed.

(** C2. When the chain raises [OutputParserException], the endpoint fails
    with an [HTTPException] of status 500 whose detail says that the LLM
    output could not be parsed. *)
Theorem unparsable_output_is_500
    (patient_info : PatientInfo.t) (w w' : World) (chain : RunnableSequence.t)
    (e : exn) :
  globals w !! "recommendation_chain" = Some (GChain chain) ->
  ainvoke chain (chain_input patient_info) w = (Raise e, w') ->
  isinstance e cOutputParserException = true ->
  exists w'',
    recommend_department patient_info w
    = (Raise (HTTPException 500 (parse_error_detail e)), w'')
    /\ String.prefix "LLM output could not be parsed." (parse_error_detail e) = true
    /\ run_endpoint (recommend_department patient_info) w
       = (Return (Some {| HTTPResponse.status_code := 500;
                          HTTPResponse.body :=
                            PyDict {[ "detail" := PyStr (parse_error_detail e) ]} |}),
          w'').
Proof.
  intros Hb Hi He.
  pose proof (endpoint_parser_exception _ _ _ _ Hb _ Hi He) as E.
  eexists. split; [exact E|]. split; [reflexivity|].
  exact (run_endpoint_eq _ _ _ _ E).
Qed.

(** C3. When the chain returns a JSON object in which the field
    [recommended_department] is missing, or is not a string, the endpoint
    fails with an [HTTPException] of status 500. *)
Theorem missing_field_is_500
    (patient_info : PatientInfo.t) (w w' : World) (chain : RunnableSequence.t)
    (kw : gmap string pyobj) :
  globals w !! "recommendation_chain" = Some (GChain chain) ->
  ainvoke chain (chain_input patient_info) w = (Return (PyDict kw), w') ->
  (forall s, kw !! "recommended_department" <> Some (PyStr s)) ->
  exists detail w'',
    recommend_department patient_info w = (Raise (HTTPException 500 detail), w'')
    /\ run_endpoint (recommend_department patient_info) w
       = (Return (Some {| HTTPResponse.status_code := 500;
                          HTTPResponse.body := PyDict {[ "detail" := PyStr detail ]} |}),
          w'').
Proof.
  intros Hb Hi Hk.
  pose proof (endpoint_invalid _ _ _ _ Hb _ Hi (validate_no_string _ Hk)) as E.
  do 2 eexists. split; [exact E|]. exact (run_endpoint_eq _ _ _ _ E).
Qed.



(** ** Start-up *)

Lemma service_fails_with_module (requests : list PatientInfo.t) (w w' : World) (e : exn) :
  main_module w = (Raise e, w') -> service requests w = (Raise e, w').
Proof. intros H. unfold service, mbind, M_bind. by rewrite H. Qed.

Lemma startup_without_key (w : World) (v : option string) :
  (environ w ∪ dotenv_values) !! "GOOGLE_API_KEY" = v ->
  truthy v = false ->
  exists w',
    main_module w = (Raise missing_key_error, w')
    /\ globals w' = <["GOOGLE_API_KEY" := GOptStr v]> (globals w)
    /\ globals w' !! "app" = globals w !! "app"
    /\ provider_calls w' = provider_calls w
    /\ forall requests, service requests w = (Raise missing_key_error, w').
Proof.
  intros Hv Ht. pose proof (main_module_without_key _ _ Hv Ht) as E.
  eexists. split; [exact E|]. split; [reflexivity|]. split.
  - cbn -[lookup insert union]. by rewrite lookup_insert_ne.
  - split; [reflexivity|]. intros requests.
    exact (service_fails_with_module _ _ _ _ E).
Qed.

(** C5. When [GOOGLE_API_KEY] is missing at start-up (neither in the
    process environment nor in the [.env] file), the module body raises
    [ValueError] before it creates the application: the only name it has
    bound is [GOOGLE_API_KEY], [app] is not bound by it, and the service
    answers no request and calls the provider for none. *)
Theorem missing_key_prevents_startup (w : World) :
  environ w !! "GOOGLE_API_KEY" = None ->
  dotenv_values !! "GOOGLE_API_KEY" = None ->
  exists w',
    main_module w = (Raise missing_key_error, w')
    /\ class_of missing_key_error = cValueError
    /\ globals w' = <["GOOGLE_API_KEY" := GOptStr None]> (globals w)
    /\ globals w' !! "app" = globals w !! "app"
    /\ provider_calls w' = provider_calls w
    /\ forall requests, service requests w = (Raise missing_key_error, w').
Proof.
  intros He Hd.
  assert (Hv : (environ w ∪ dotenv_values) !! "GOOGLE_API_KEY" = None).
  { by apply lookup_union_None. }
  destruct (startup_without_key _ _ Hv eq_refl) as (w' & E & G & A & C & S).
  exists w'. repeat split; assumption.
Qed.

(** C9. A key that is set to the empty string is treated as a missing one:
    the start-up check tests the truth value, so when what the module reads
    for [GOOGLE_API_KEY] is the empty string (set so in the environment, or
    in the [.env] file with nothing in the environment), the module body
    raises the same [ValueError] and the service does not start. *)
Theorem empty_key_prevents_startup (w : World) :
  (environ w ∪ dotenv_values) !! "GOOGLE_API_KEY" = Some "" ->
  exists w',
    main_module w = (Raise missing_key_error, w')
    /\ class_of missing_key_error = cValueError
    /\ globals w' = <["GOOGLE_API_KEY" := GOptStr (Some "")]> (globals w)
    /\ globals w' !! "app" = globals w !! "app"
    /\ provider_calls w' = provider_calls w
    /\ forall requests, service requests w = (Raise missing_key_error, w').
Proof.
  intros Hv.
  destruct (startup_without_key _ _ Hv eq_refl) as (w' & E & G & A & C & S).
  exists w'. repeat split; assumption.
Qed.

(** An empty key in the environment is not replaced by the [.env] file. *)
Lemma empty_key_in_environment (w : World) :
  environ w !! "GOOGLE_API_KEY" = Some "" ->
  (environ w ∪ dotenv_values) !! "GOOGLE_API_KEY" = Some "".
Proof. intros He. by apply lookup_union_Some_l. Qed.

(** ** Requests *)

(** The join of the endpoint is the concatenation with separator of the
    Standard Library. *)
Lemma join_is_concat (sep : string) (xs : list string) :
  join sep xs = String.concat sep xs.
Proof.
  induction xs as [|x xs IH]; [reflexivity|].
  destruct xs as [|y xs]; [reflexivity|].
  change (x +:+ sep +:+ join sep (y :: xs)
          = x +:+ sep +:+ String.concat sep (y :: xs)).
  by rewrite IH.
Qed.

(** C6. For every request served, the provider is called exactly once, with
    the fixed system message and the human message made of the fixed text
    with, in the places of the three fields, the gender, the age in decimal
    and the symptoms concatenated with a comma and a space between them.
    The expected text is written with the Standard Library's [String.concat]
    and stdpp's [pretty], not with the functions of the endpoint. *)
Theorem prompt_is_filled_and_provider_called_once
    (patient_info : PatientInfo.t) (w w' : World)
    (o : outcome DepartmentRecommendation.t) :
  serving w ->
  recommend_department patient_info w = (o, w') ->
  exists key,
    provider_calls w'
    = provider_calls w
      ++ [(the_llm key,
           [ {| BaseMessage.type := system;
                BaseMessage.content := system_message_text |};
             {| BaseMessage.type := human;
                BaseMessage.content :=
                  "Patient Gender: " +:+ PatientInfo.gender patient_info
                  +:+ String "010" ""
                  +:+ "Patient Age: " +:+ pretty (PatientInfo.age patient_info)
                  +:+ String "010" ""
                  +:+ "Patient Symptoms (Bahasa Indonesia): "
                  +:+ String.concat ", " (PatientInfo.symptoms patient_info)
                  +:+ String "010" "" +:+ String "010" ""
                  +:+ "Based on this information, what is the recommended department?" |} ])].
Proof.
  intros Hs H.
  destruct (serving_one_call _ _ _ _ Hs H) as (key & _ & C).
  exists key. rewrite C.
  unfold prompt_messages, human_message_text, str_int, LF.
  by rewrite join_is_concat.
Qed.

(** C7. The department is free text: whatever string the chain returns in
    [recommended_department], the empty string included, passes validation
    and is returned as it is, with a success response. *)
Theorem department_is_free_text
    (patient_info : PatientInfo.t) (w w' : World) (chain : RunnableSequence.t)
    (kw : gmap string pyobj) (s : string) :
  globals w !! "recommendation_chain" = Some (GChain chain) ->
  ainvoke chain (chain_input patient_info) w = (Return (PyDict kw), w') ->
  kw !! "recommended_department" = Some (PyStr s) ->
  LLMDepartmentOutput.validate kw
  = Some {| LLMDepartmentOutput.recommended_department := s |}
  /\ fst (recommend_department patient_info w)
     = Return {| DepartmentRecommendation.recommended_department := s |}
  /\ fst (run_endpoint (recommend_department patient_info) w)
     = Return (Some {| HTTPResponse.status_code := 200;
                       HTTPResponse.body :=
                         PyDict {[ "recommended_department" := PyStr s ]} |}).
Proof.
  intros Hb Hi Hk.
  pose proof (validate_string _ _ Hk) as Hv.
  pose proof (endpoint_valid _ _ _ _ Hb _ _ Hi Hv) as E.
  split; [exact Hv|]. split; [by rewrite E|].
  by rewrite (run_endpoint_eq _ _ _ _ E).
Qed.

(** C8. Requests are independent: the endpoint binds no module-level name
    and leaves the environment alone; each request makes exactly one call
    to the provider whatever was served before (no retry, no cache); and
    two runs of the same request to which the chain answers the same end
    with the same result. *)
Theorem requests_are_independent
    (patient_info : PatientInfo.t) (w1 w1' w2 w2' : World)
    (o1 o2 : outcome DepartmentRecommendation.t) :
  serving w1 -> serving w2 ->
  recommend_department patient_info w1 = (o1, w1') ->
  recommend_department patient_info w2 = (o2, w2') ->
  globals w1' = globals w1
  /\ environ w1' = environ w1
  /\ (exists call, provider_calls w1' = provider_calls w1 ++ [call])
  /\ (chain_response patient_info w1 = chain_response patient_info w2 -> o1 = o2).
Proof.
  intros Hs1 Hs2 H1 H2.
  destruct (endpoint_frame _ _ _ _ H1) as (G & En & _).
  destruct (serving_one_call _ _ _ _ Hs1 H1) as (key1 & Hb1 & C1).
  destruct (serving_chain _ Hs2) as [key2 Hb2].
  split; [exact G|]. split; [exact En|]. split; [eexists; exact C1|].
  unfold chain_response. rewrite Hb1, Hb2. intros Hr. apply (inj Some) in Hr.
  assert (Hi2 : ainvoke (the_chain key2) (chain_input patient_info) w2
                = (fst (ainvoke (the_chain key1) (chain_input patient_info) w1),
                   snd (ainvoke (the_chain key2) (chain_input patient_info) w2))).
  { rewrite Hr. apply surjective_pairing. }
  pose proof (endpoint_outcome_determined _ _ _ _ _ _ _ _ Hb1 Hb2
                (surjective_pairing _) Hi2) as E.
  by rewrite H1, H2 in E.
Qed.

(** C10. The detail of the inner clause never reaches the client: the
    [HTTPException] raised for a [ValidationError] is caught by the clause
    for [Exception] of the same [try], so for every validation failure the
    endpoint fails with the generic detail, with status 500. *)
Theorem validation_detail_is_replaced
    (patient_info : PatientInfo.t) (w w' : World) (chain : RunnableSequence.t)
    (kw : gmap string pyobj) :
  globals w !! "recommendation_chain" = Some (GChain chain) ->
  ainvoke chain (chain_input patient_info) w = (Return (PyDict kw), w') ->
  LLMDepartmentOutput.validate kw = None ->
  exists detail w'',
    recommend_department patient_info w = (Raise (HTTPException 500 detail), w'')
    /\ detail
       = internal_error_detail
           (HTTPException 500
              (validation_failed_detail (Exc cValidationError (validation_error_str kw))))
    /\ String.prefix "An internal server error occurred: " detail = true
    /\ String.prefix "LLM response validation failed" detail = false
    /\ detail <> validation_failed_detail (Exc cValidationError (validation_error_str kw)).
Proof.
  intros Hb Hi Hv.
  pose proof (endpoint_invalid _ _ _ _ Hb _ Hi Hv) as E.
  do 2 eexists. split; [exact E|]. split; [reflexivity|].
  split; [reflexivity|]. split; [reflexivity|]. discriminate.
Qed.

(** ** Further properties of start-up *)

(** X1. The module body runs to its end exactly when the key it reads, from the
    environment or else from the [.env] file, is a non-empty string. *)
Theorem startup_succeeds_iff_key_is_set (w : World) :
  (exists w', main_module w = (Return tt, w'))
  <-> truthy ((environ w ∪ dotenv_values) !! "GOOGLE_API_KEY") = true.
Proof.
  split.
  - intros [w' H].
    destruct (truthy ((environ w ∪ dotenv_values) !! "GOOGLE_API_KEY")) eqn:Ht; [done|].
    by rewrite (main_module_without_key _ _ eq_refl Ht) in H.
  - intros Ht.
    destruct ((environ w ∪ dotenv_values) !! "GOOGLE_API_KEY") as [key|] eqn:Hv; [|done].
    assert (Hk : key <> "").
    { intros ->. discriminate. }
    destruct (main_module_with_key _ _ Hv Hk) as (w' & E & _). eauto.
Qed.

(** X3. The key of the environment wins over the one of the [.env] file, which
    is used when the environment has none: the client of the chain is
    configured with that key. *)
Theorem environment_key_wins_over_dotenv (w : World) (key : string) :
  environ w !! "GOOGLE_API_KEY" = Some key
  \/ (environ w !! "GOOGLE_API_KEY" = None
      /\ dotenv_values !! "GOOGLE_API_KEY" = Some key) ->
  key <> "" ->
  exists w',
    main_module w = (Return tt, w')
    /\ globals w' !! "recommendation_chain" = Some (GChain (the_chain key))
    /\ ChatGoogleGenerativeAI.google_api_key (RunnableSequence.middle (the_chain key)) = key
    /\ environ w' !! "GOOGLE_API_KEY" = Some key.
Proof.
  intros Hsrc Hk.
  assert (Hv : (environ w ∪ dotenv_values) !! "GOOGLE_API_KEY" = Some key).
  { destruct Hsrc as [He|[He Hd]].
    - by apply lookup_union_Some_l.
    - by rewrite lookup_union_r. }
  destruct (main_module_with_key _ _ Hv Hk) as (w' & E & Hc & _ & En & _).
  exists w'. split; [exact E|]. split; [exact Hc|]. split; [reflexivity|].
  by rewrite En.
Qed.

(** ** Further properties of the prompt *)

Lemma append_nil_r (s : string) : s +:+ "" = s.
Proof. induction s as [|c s IH]; [reflexivity|]. rewrite append_cons. by rewrite IH. Qed.

Lemma append_assoc (a b c : string) : (a +:+ b) +:+ c = a +:+ (b +:+ c).
Proof.
  induction a as [|x a IH]; [reflexivity|].
  rewrite !append_cons. by rewrite IH.
Qed.

(** X4. Doubling the braces, as the module does with the format instructions,
    and formatting give the text back, whatever the text and the keyword
    arguments are: no brace of the text is read as a field. *)
Theorem escaped_text_formats_to_itself (s : string) (kwargs : gmap string pyobj) :
  format (replace "}" "}}" (replace "{" "{{" s)) kwargs = Some s.
Proof.
  unfold format.
  pose proof (format_from_escaped (fun name => kwargs !! name ≫= str_obj) s "") as H.
  rewrite append_nil_r in H. rewrite H. simpl. by rewrite append_nil_r.
Qed.

(** [sep.join] of two non-empty lists put together is the two joined texts
    with one separator between them. *)
Lemma join_app (sep : string) (xs ys : list string) :
  xs <> [] -> ys <> [] ->
  join sep (xs ++ ys) = join sep xs +:+ sep +:+ join sep ys.
Proof.
  intros Hx Hy. induction xs as [|x xs IH]; [done|].
  destruct xs as [|x' xs].
  - destruct ys as [|y ys]; [done|]. reflexivity.
  - change (join sep ((x :: x' :: xs) ++ ys))
      with (x +:+ sep +:+ join sep ((x' :: xs) ++ ys)).
    rewrite IH by done.
    change (join sep (x :: x' :: xs)) with (x +:+ sep +:+ join sep (x' :: xs)).
    by rewrite !append_assoc.
Qed.

(** X5. The provider cannot tell a symptom that holds the separator from two
    symptoms: both requests give the same [chain_input]. *)
Theorem joined_symptoms_are_ambiguous (gender : string) (age : Z) (a b : string)
    (before after : list string) :
  chain_input {| PatientInfo.gender := gender; PatientInfo.age := age;
                 PatientInfo.symptoms := before ++ [a; b] ++ after |}
  = chain_input {| PatientInfo.gender := gender; PatientInfo.age := age;
                   PatientInfo.symptoms := before ++ [a +:+ ", " +:+ b] ++ after |}.
Proof.
  assert (H : forall tail : list string,
             join ", " ([a; b] ++ tail) = join ", " ([a +:+ ", " +:+ b] ++ tail)).
  { intros [|t tail]; [reflexivity|].
    change (a +:+ ", " +:+ b +:+ ", " +:+ join ", " (t :: tail)
            = (a +:+ ", " +:+ b) +:+ ", " +:+ join ", " (t :: tail)).
    by rewrite !append_assoc. }
  assert (J : join ", " (before ++ [a; b] ++ after)
              = join ", " (before ++ [a +:+ ", " +:+ b] ++ after)).
  { destruct before as [|x before]; [apply H|].
    rewrite !(join_app ", " (x :: before)); try done.
    by rewrite H. }
  unfold chain_input.
  cbn [PatientInfo.symptoms PatientInfo.gender PatientInfo.age].
  by rewrite J.
Qed.

(** ** Further properties of the endpoint *)

Lemma prefix_append (lit s : string) : String.prefix lit (lit +:+ s) = true.
Proof.
  induction lit as [|c lit IH]; [by destruct s|].
  rewrite append_cons. simpl. by destruct (ascii_dec c c).
Qed.

Lemma http_exception_is_exception (status_code : Z) (detail : string) :
  isinstance (HTTPException status_code detail) cException = true.
Proof. reflexivity. Qed.

(** X6. A recommendation is never made up: when the endpoint returns one, the
    chain returned a dict and the recommendation is the string that dict
    holds under [recommended_department]. *)
Theorem recommendation_comes_from_the_chain
    (patient_info : PatientInfo.t) (w w' : World) (chain : RunnableSequence.t)
    (r : DepartmentRecommendation.t) :
  globals w !! "recommendation_chain" = Some (GChain chain) ->
  recommend_department patient_info w = (Return r, w') ->
  exists kw,
    ainvoke chain (chain_input patient_info) w = (Return (PyDict kw), w')
    /\ kw !! "recommended_department"
       = Some (PyStr (DepartmentRecommendation.recommended_department r)).
Proof.
  intros Hb H.
  destruct (ainvoke chain (chain_input patient_info) w) as [oc wc] eqn:Hi.
  destruct oc as [raw|e].
  - destruct (dict_or_not raw) as [[kw ->]|Hn].
    + destruct (LLMDepartmentOutput.validate kw) as [m|] eqn:Hv.
      * rewrite (endpoint_valid _ _ _ _ Hb _ _ Hi Hv) in H.
        injection H as <- <-. exists kw. split; [reflexivity|].
        unfold LLMDepartmentOutput.validate in Hv.
        destruct (kw !! "recommended_department") as [[]|]; try discriminate.
        by injection Hv as <-.
      * by rewrite (endpoint_invalid _ _ _ _ Hb _ Hi Hv) in H.
    + by rewrite (endpoint_not_mapping _ _ _ _ Hb _ Hi Hn) in H.
  - destruct (isinstance e cOutputParserException) eqn:Hp.
    + by rewrite (endpoint_parser_exception _ _ _ _ Hb _ Hi Hp) in H.
    + destruct (isinstance e cException) eqn:He.
      * by rewrite (endpoint_other_exception _ _ _ _ Hb _ Hi Hp He) in H.
      * by rewrite (endpoint_not_caught _ _ _ _ Hb _ Hi He) in H.
Qed.

(** X7. The two kinds of detail tell the causes apart: the detail of a failure
    starts with "LLM output could not be parsed." exactly when the chain
    raised an [OutputParserException]; every other failure has the generic
    detail. *)
Theorem parse_detail_iff_parser_exception
    (patient_info : PatientInfo.t) (w w' : World) (chain : RunnableSequence.t)
    (detail : string) :
  globals w !! "recommendation_chain" = Some (GChain chain) ->
  recommend_department patient_info w = (Raise (HTTPException 500 detail), w') ->
  (String.prefix "LLM output could not be parsed." detail = true
   <-> exists e wc,
         ainvoke chain (chain_input patient_info) w = (Raise e, wc)
         /\ isinstance e cOutputParserException = true)
  /\ (String.prefix "LLM output could not be parsed." detail = false
      -> String.prefix "An internal server error occurred: " detail = true).
Proof.
  intros Hb H.
  destruct (ainvoke chain (chain_input patient_info) w) as [oc wc] eqn:Hi.
  destruct oc as [raw|e].
  - destruct (dict_or_not raw) as [[kw ->]|Hn].
    + destruct (LLMDepartmentOutput.validate kw) as [m|] eqn:Hv.
      * by rewrite (endpoint_valid _ _ _ _ Hb _ _ Hi Hv) in H.
      * rewrite (endpoint_invalid _ _ _ _ Hb _ Hi Hv) in H.
        injection H as <- <-. split; [split|reflexivity].
        -- discriminate.
        -- by intros (e' & wc' & [=] & _).
    + rewrite (endpoint_not_mapping _ _ _ _ Hb _ Hi Hn) in H.
      injection H as <- <-. split; [split|reflexivity].
      * discriminate.
      * by intros (e' & wc' & [=] & _).
  - destruct (isinstance e cOutputParserException) eqn:Hp.
    + rewrite (endpoint_parser_exception _ _ _ _ Hb _ Hi Hp) in H.
      injection H as <- <-. split; [split; [eauto|reflexivity]|discriminate].
    + destruct (isinstance e cException) eqn:He.
      * rewrite (endpoint_other_exception _ _ _ _ Hb _ Hi Hp He) in H.
        injection H as <- <-. split; [split|intros _; apply prefix_append].
        -- discriminate.
        -- intros (e' & wc' & [= <- <-] & He'). congruence.
      * rewrite (endpoint_not_caught _ _ _ _ Hb _ Hi He) in H.
        injection H as -> <-. by rewrite http_exception_is_exception in He.
Qed.


(** X9. An answer that is JSON but no object (an array, a string, a number,
    [null]) is not a validation failure: unpacking it raises [TypeError],
    which the generic clause turns into status 500 with the text of the
    [TypeError], naming the type received. *)
Theorem non_object_answer_is_500
    (patient_info : PatientInfo.t) (w w' : World) (chain : RunnableSequence.t)
    (raw_response : pyobj) :
  globals w !! "recommendation_chain" = Some (GChain chain) ->
  ainvoke chain (chain_input patient_info) w = (Return raw_response, w') ->
  (forall kw, raw_response <> PyDict kw) ->
  exists w'',
    recommend_department patient_info w
    = (Raise (HTTPException 500
                ("An internal server error occurred: "
                 +:+ "main.LLMDepartmentOutput() argument after ** must be a mapping, not "
                 +:+ type_name raw_response
                 +:+ ". Please check the server logs. "
                 +:+ "Ensure the correct LLM model ID is specified and your API key is valid.")),
       w'').
Proof.
  intros Hb Hi Hn.
  pose proof (endpoint_not_mapping _ _ _ _ Hb _ Hi Hn) as E.
  eexists. rewrite E. unfold internal_error_detail, str_exn.
  by rewrite !append_assoc.
Qed.


(** ** Further properties of the service *)

(** In a world that serves requests, the key read at start-up is still the
    environment's [GOOGLE_API_KEY], and the chain is the one built with
    it. *)
Lemma serving_key (w : World) :
  serving w ->
  exists key,
    key <> ""
    /\ environ w !! "GOOGLE_API_KEY" = Some key
    /\ globals w !! "recommendation_chain" = Some (GChain (the_chain key)).
Proof.
  induction 1 as [w0 w H|w w' patient_info o _ (key & Hk & He & Hg) H].
  - destruct ((environ w0 ∪ dotenv_values) !! "GOOGLE_API_KEY") as [key|] eqn:Hv.
    + destruct (decide (key = "")) as [->|Hk].
      * by rewrite (main_module_without_key _ _ Hv) in H.
      * destruct (main_module_with_key _ _ Hv Hk) as (w1 & E & Hc & _ & En & _).
        rewrite E in H. injection H as <-.
        exists key. rewrite En. eauto.
    + by rewrite (main_module_without_key _ _ Hv) in H.
  - destruct (endpoint_frame _ _ _ _ H) as (G & En & _).
    exists key. rewrite G, En. eauto.
Qed.

(** X12. Every call the service makes to the provider, however many requests were
    served before and whatever they ended in, uses the model
    [models/gemini-1.5-flash] at temperature 0.0 with the key read at
    start-up, which is the environment's [GOOGLE_API_KEY]. *)
Theorem every_call_uses_the_startup_configuration
    (patient_info : PatientInfo.t) (w w' : World)
    (o : outcome DepartmentRecommendation.t) :
  serving w ->
  recommend_department patient_info w = (o, w') ->
  exists l messages,
    provider_calls w' = provider_calls w ++ [(l, messages)]
    /\ ChatGoogleGenerativeAI.model l = "models/gemini-1.5-flash"
    /\ ChatGoogleGenerativeAI.temperature l = "0.0"
    /\ environ w' !! "GOOGLE_API_KEY" = Some (ChatGoogleGenerativeAI.google_api_key l)
    /\ ChatGoogleGenerativeAI.google_api_key l <> "".
Proof.
  intros Hs H.
  destruct (serving_key _ Hs) as (key & Hk & He & Hg).
  pose proof (ainvoke_the_chain key patient_info w) as Hi.
  destruct (endpoint_after_chain _ _ _ _ _ Hg Hi) as (o' & w'' & E & Hw & _).
  rewrite E in H. injection H as <- <-.
  exists (the_llm key), (prompt_messages patient_info).
  destruct Hw as [->|[line ->]]; repeat split; assumption.
Qed.

(** X13. A request without symptoms is not refused: the provider is called, with
    nothing after the label of the symptoms. *)
Theorem empty_symptoms_are_sent
    (patient_info : PatientInfo.t) (w w' : World)
    (o : outcome DepartmentRecommendation.t) :
  serving w ->
  PatientInfo.symptoms patient_info = [] ->
  recommend_department patient_info w = (o, w') ->
  exists l system_message,
    provider_calls w'
    = provider_calls w
      ++ [(l,
           [ system_message;
             {| BaseMessage.type := human;
                BaseMessage.content :=
                  "Patient Gender: " +:+ PatientInfo.gender patient_info +:+ LF
                  +:+ "Patient Age: " +:+ str_int (PatientInfo.age patient_info) +:+ LF
                  +:+ "Patient Symptoms (Bahasa Indonesia): " +:+ LF +:+ LF
                  +:+ "Based on this information, what is the recommended department?" |} ])].
Proof.
  intros Hs Hn H.
  destruct (serving_one_call _ _ _ _ Hs H) as (key & _ & C).
  do 2 eexists. rewrite C. unfold prompt_messages, human_message_text.
  rewrite Hn. reflexivity.
Qed.
End Main.

(** * Concrete runs

    The theorems above at a scripted provider: a process started with the
    key, the module imported, and one patient. *)

#[local] Abbreviation mock_main :=
  (main_module Mock.dotenv_values Mock.get_format_instructions).
#[local] Abbreviation imported := (snd (mock_main Mock.fresh)).
#[local] Abbreviation mock_chain := (the_chain Mock.get_format_instructions "secret").
#[local] Abbreviation mock_ainvoke script :=
  (ainvoke Mock.parse_result (Mock.generate script) mock_chain (chain_input Mock.patient)).
#[local] Abbreviation mock_recommend script :=
  (recommend_department Mock.parse_result (Mock.generate script)
     Mock.validation_error_str Mock.patient).
#[local] Abbreviation mock_serving script :=
  (serving Mock.dotenv_values Mock.get_format_instructions Mock.parse_result
     (Mock.generate script) Mock.validation_error_str).

Lemma imported_serving (script : list (string + exn)) : mock_serving script imported.
Proof. apply (serving_import _ _ _ _ _ Mock.fresh). vm_compute. reflexivity. Qed.

Lemma imported_chain :
  globals imported !! "recommendation_chain" = Some (GChain mock_chain).
Proof. vm_compute. reflexivity. Qed.

Lemma recommend_department_returns_the_department_witness :
  mock_recommend [inl Mock.neurology_text] imported
  = (Return {| DepartmentRecommendation.recommended_department := "Neurology" |},
     snd (mock_ainvoke [inl Mock.neurology_text] imported)).
Proof.
  refine (proj1 (recommend_department_returns_the_department
                   Mock.parse_result (Mock.generate [inl Mock.neurology_text])
                   Mock.validation_error_str Mock.patient imported _ mock_chain
                   {[ "recommended_department" := PyStr "Neurology" ]} "Neurology"
                   imported_chain _ _)).
  - vm_compute. reflexivity.
  - reflexivity.
Defined.

Lemma unparsable_output_is_500_witness :
  fst (mock_recommend [inl "oops"] imported)
  = Raise (HTTPException 500
             ("LLM output could not be parsed. This often means the LLM did not return valid JSON or did not follow the schema. Error: "
              +:+ "Invalid json output: oops")).
Proof.
  destruct (unparsable_output_is_500
              Mock.parse_result (Mock.generate [inl "oops"])
              Mock.validation_error_str Mock.patient imported
              (snd (mock_ainvoke [inl "oops"] imported)) mock_chain
              (Exc cOutputParserException "Invalid json output: oops")
              imported_chain) as (w'' & E & _).
  - vm_compute. reflexivity.
  - reflexivity.
  - rewrite E. reflexivity.
Defined.

Lemma missing_field_is_500_witness :
  exists detail,
    fst (mock_recommend [inl "{}"] imported) = Raise (HTTPException 500 detail).
Proof.
  destruct (missing_field_is_500
              Mock.parse_result (Mock.generate [inl "{}"])
              Mock.validation_error_str Mock.patient imported
              (snd (mock_ainvoke [inl "{}"] imported)) mock_chain ∅
              imported_chain) as (detail & w'' & E & _).
  - vm_compute. reflexivity.
  - intros s. rewrite lookup_empty. discriminate.
  - exists detail. rewrite E. reflexivity.
Defined.



Lemma missing_key_prevents_startup_witness :
  fst (mock_main Mock.unconfigured) = Raise missing_key_error
  /\ globals (snd (mock_main Mock.unconfigured)) !! "app" = None.
Proof.
  destruct (missing_key_prevents_startup Mock.dotenv_values Mock.get_format_instructions
              Mock.parse_result (Mock.generate []) Mock.validation_error_str
              Mock.unconfigured) as (w' & E & _ & _ & A & _).
  - reflexivity.
  - reflexivity.
  - rewrite E. split; [reflexivity|]. exact A.
Defined.

Lemma empty_key_prevents_startup_witness :
  fst (mock_main Mock.empty_key) = Raise missing_key_error
  /\ globals (snd (mock_main Mock.empty_key)) !! "app" = None.
Proof.
  destruct (empty_key_prevents_startup Mock.dotenv_values Mock.get_format_instructions
              Mock.parse_result (Mock.generate []) Mock.validation_error_str
              Mock.empty_key) as (w' & E & _ & _ & A & _).
  - reflexivity.
  - rewrite E. split; [reflexivity|]. exact A.
Defined.

Lemma prompt_is_filled_and_provider_called_once_witness :
  exists l system_message,
    provider_calls (snd (mock_recommend [inl Mock.neurology_text] imported))
    = [(l,
        [ system_message;
          {| BaseMessage.type := human;
             BaseMessage.content :=
"Patient Gender: female
Patient Age: 62
Patient Symptoms (Bahasa Indonesia): pusing, mual, sulit berjalan

Based on this information, what is the recommended department?" |} ])].
Proof.
  destruct (prompt_is_filled_and_provider_called_once
              Mock.dotenv_values Mock.get_format_instructions
              Mock.parse_result (Mock.generate [inl Mock.neurology_text])
              Mock.validation_error_str Mock.patient imported
              (snd (mock_recommend [inl Mock.neurology_text] imported))
              (fst (mock_recommend [inl Mock.neurology_text] imported))
              (imported_serving _) (surjective_pairing _)) as (key & C).
  exists (the_llm key),
    {| BaseMessage.type := system;
       BaseMessage.content := system_message_text Mock.get_format_instructions |}.
  rewrite C. vm_compute. reflexivity.
Defined.

Lemma department_is_free_text_witness :
  fst (mock_recommend [inl Mock.empty_department_text] imported)
  = Return {| DepartmentRecommendation.recommended_department := "" |}.
Proof.
  refine (proj1 (proj2 (department_is_free_text
                   Mock.parse_result (Mock.generate [inl Mock.empty_department_text])
                   Mock.validation_error_str Mock.patient imported
                   (snd (mock_ainvoke [inl Mock.empty_department_text] imported))
                   mock_chain {[ "recommended_department" := PyStr "" ]} ""
                   imported_chain _ _))).
  - vm_compute. reflexivity.
  - reflexivity.
Defined.

Lemma requests_are_independent_witness :
  let script := [inl Mock.neurology_text; inl Mock.neurology_text] in
  let served := snd (mock_recommend script imported) in
  fst (mock_recommend script imported) = fst (mock_recommend script served)
  /\ globals served = globals imported.
Proof.
  intros script served.
  destruct (requests_are_independent
              Mock.dotenv_values Mock.get_format_instructions
              Mock.parse_result (Mock.generate script)
              Mock.validation_error_str Mock.patient
              imported served served (snd (mock_recommend script served))
              (fst (mock_recommend script imported))
              (fst (mock_recommend script served))) as (G & _ & _ & D).
  - apply imported_serving.
  - apply (serving_request _ _ _ _ _ imported served Mock.patient
             (fst (mock_recommend script imported)) (imported_serving _)).
    apply surjective_pairing.
  - apply surjective_pairing.
  - apply surjective_pairing.
  - split; [|exact G]. apply D. vm_compute. reflexivity.
Defined.

Lemma validation_detail_is_replaced_witness :
  fst (mock_recommend [inl Mock.other_key_text] imported)
  = Raise (HTTPException 500
             ("An internal server error occurred: "
              +:+ "500: LLM response validation failed: 1 validation error for LLMDepartmentOutput"
              +:+ ". Please check the server logs. "
              +:+ "Ensure the correct LLM model ID is specified and your API key is valid.")).
Proof.
  destruct (validation_detail_is_replaced
              Mock.parse_result (Mock.generate [inl Mock.other_key_text])
              Mock.validation_error_str Mock.patient imported
              (snd (mock_ainvoke [inl Mock.other_key_text] imported)) mock_chain
              {[ "department" := PyStr "Neurology" ]}
              imported_chain) as (detail & w'' & E & -> & _).
  - vm_compute. reflexivity.
  - reflexivity.
  - rewrite E. vm_compute. reflexivity.
Defined.

(** Further runs of the endpoint, by computation. *)

Example number_is_rejected :
  fst (mock_recommend [inl Mock.number_department_text] imported)
  = Raise (HTTPException 500
             ("An internal server error occurred: "
              +:+ "500: LLM response validation failed: 1 validation error for LLMDepartmentOutput"
              +:+ ". Please check the server logs. "
              +:+ "Ensure the correct LLM model ID is specified and your API key is valid.")).
Proof. vm_compute. reflexivity. Qed.

Example array_is_rejected :
  fst (mock_recommend [inl "[]"] imported)
  = Raise (HTTPException 500
             ("An internal server error occurred: "
              +:+ "main.LLMDepartmentOutput() argument after ** must be a mapping, not list"
              +:+ ". Please check the server logs. "
              +:+ "Ensure the correct LLM model ID is specified and your API key is valid.")).
Proof. vm_compute. reflexivity. Qed.

Example human_message_of_a_run :
  map (fun call => map BaseMessage.content (tail (snd call)))
      (provider_calls (snd (mock_recommend [inl Mock.neurology_text] imported)))
  = [[
"Patient Gender: female
Patient Age: 62
Patient Symptoms (Bahasa Indonesia): pusing, mual, sulit berjalan

Based on this information, what is the recommended department?" ]].
Proof. vm_compute. reflexivity. Qed.

Example failure_is_printed :
  stdout (snd (mock_recommend [inl "oops"] imported))
  = ["Output parsing error: Invalid json output: oops"].
Proof. vm_compute. reflexivity. Qed.

Example service_answers :
  fst (service Mock.dotenv_values Mock.get_format_instructions Mock.parse_result
         (Mock.generate [inl Mock.neurology_text; inl "oops"])
         Mock.validation_error_str [Mock.patient; Mock.patient] Mock.fresh)
  = Return
      [ Some {| HTTPResponse.status_code := 200;
                HTTPResponse.body :=
                  PyDict {[ "recommended_department" := PyStr "Neurology" ]} |};
        Some {| HTTPResponse.status_code := 500;
                HTTPResponse.body :=
                  PyDict {[ "detail" :=
                              PyStr ("LLM output could not be parsed. This often means the LLM did not return valid JSON or did not follow the schema. Error: "
                                     +:+ "Invalid json output: oops") ]} |} ].
Proof. vm_compute. reflexivity. Qed.

(** Concrete runs of the further properties. *)

Lemma environment_key_wins_over_dotenv_witness :
  exists w',
    main_module {[ "GOOGLE_API_KEY" := "from-file" ]} Mock.get_format_instructions
      Mock.fresh = (Return tt, w')
    /\ environ w' !! "GOOGLE_API_KEY" = Some "secret".
Proof.
  destruct (environment_key_wins_over_dotenv {[ "GOOGLE_API_KEY" := "from-file" ]}
              Mock.get_format_instructions Mock.fresh "secret")
    as (w' & E & _ & _ & En).
  - left. reflexivity.
  - discriminate.
  - exists w'. split; assumption.
Defined.

Lemma recommendation_comes_from_the_chain_witness :
  exists kw,
    mock_ainvoke [inl Mock.neurology_text] imported
    = (Return (PyDict kw), snd (mock_ainvoke [inl Mock.neurology_text] imported))
    /\ kw !! "recommended_department" = Some (PyStr "Neurology").
Proof.
  apply (recommendation_comes_from_the_chain
           Mock.parse_result (Mock.generate [inl Mock.neurology_text])
           Mock.validation_error_str Mock.patient imported _ mock_chain
           {| DepartmentRecommendation.recommended_department := "Neurology" |}
           imported_chain).
  vm_compute. reflexivity.
Defined.

Lemma parse_detail_iff_parser_exception_witness :
  String.prefix "LLM output could not be parsed."
    (parse_error_detail (Exc cOutputParserException "Invalid json output: oops")) = true
  <-> exists e wc,
        mock_ainvoke [inl "oops"] imported = (Raise e, wc)
        /\ isinstance e cOutputParserException = true.
Proof.
  refine (proj1 (parse_detail_iff_parser_exception
                   Mock.parse_result (Mock.generate [inl "oops"])
                   Mock.validation_error_str Mock.patient imported
                   (snd (mock_recommend [inl "oops"] imported)) mock_chain _
                   imported_chain _)).
  vm_compute. reflexivity.
Defined.


Lemma non_object_answer_is_500_witness :
  fst (mock_recommend [inl "[]"] imported)
  = Raise (HTTPException 500
             ("An internal server error occurred: "
              +:+ "main.LLMDepartmentOutput() argument after ** must be a mapping, not list"
              +:+ ". Please check the server logs. "
              +:+ "Ensure the correct LLM model ID is specified and your API key is valid.")).
Proof.
  destruct (non_object_answer_is_500
              Mock.parse_result (Mock.generate [inl "[]"])
              Mock.validation_error_str Mock.patient imported
              (snd (mock_ainvoke [inl "[]"] imported)) mock_chain (PyList [])
              imported_chain) as (w'' & E).
  - vm_compute. reflexivity.
  - discriminate.
  - rewrite E. reflexivity.
Defined.


Lemma every_call_uses_the_startup_configuration_witness :
  exists l messages,
    provider_calls (snd (mock_recommend [inl "oops"] imported))
    = provider_calls imported ++ [(l, messages)]
    /\ ChatGoogleGenerativeAI.model l = "models/gemini-1.5-flash"
    /\ ChatGoogleGenerativeAI.temperature l = "0.0"
    /\ environ (snd (mock_recommend [inl "oops"] imported)) !! "GOOGLE_API_KEY"
       = Some (ChatGoogleGenerativeAI.google_api_key l)
    /\ ChatGoogleGenerativeAI.google_api_key l <> "".
Proof.
  apply (every_call_uses_the_startup_configuration
           Mock.dotenv_values Mock.get_format_instructions
           Mock.parse_result (Mock.generate [inl "oops"])
           Mock.validation_error_str Mock.patient imported
           (snd (mock_recommend [inl "oops"] imported))
           (fst (mock_recommend [inl "oops"] imported))
           (imported_serving _) (surjective_pairing _)).
Defined.

Lemma empty_symptoms_are_sent_witness :
  let nobody :=
    {| PatientInfo.gender := "male"; PatientInfo.age := 30; PatientInfo.symptoms := [] |} in
  let run :=
    recommend_department Mock.parse_result (Mock.generate [inl Mock.neurology_text])
      Mock.validation_error_str nobody imported in
  length (provider_calls (snd run)) = S (length (provider_calls imported)).
Proof.
  intros nobody run.
  destruct (empty_symptoms_are_sent
              Mock.dotenv_values Mock.get_format_instructions
              Mock.parse_result (Mock.generate [inl Mock.neurology_text])
              Mock.validation_error_str nobody imported (snd run) (fst run)
              (imported_serving _) eq_refl (surjective_pairing _))
    as (l & system_message & C).
  rewrite C, length_app. simpl. lia.
Defined.
